(** * The live transformation pipeline of the XSLT viewer

    A shallow embedding of [src/app/components/XsltTransformer.tsx]:
    the [performTransformation] callback, the [useLocalStorage] hook and
    the debounced re-run scheduled by the component's effect.

    The browser supplies the XML parser, the XSLT processor, the
    serializer, the JSON codec and the key-value storage.  Those are kept
    behind interfaces ([Host], [Json]); the component's own logic is
    written out over them, call by call. *)

From Stdlib Require Import String Ascii List Bool Arith Lia.
From stdpp Require Import base option list strings gmap.

Set Warnings "-register-all".
Local Open Scope string_scope.
Local Open Scope list_scope.

(** ** The document object model, as far as the component looks at it *)

Module Dom.

(** A node of a parsed tree.  Processing instructions and document type
    nodes carry neither a tag name nor text content seen by an element,
    exactly like comments, and are represented as [Comment]. *)
Inductive Node : Type :=
| Element (tagName : string) (attributes : list (string * string))
          (childNodes : list Node)
| Text (data : string)
| Comment (data : string).

Record Document : Type := mkDocument { documentChildren : list Node }.

(** Every element at or below [n], in tree (pre-)order. *)
Fixpoint elementsOf (n : Node) : list Node :=
  match n with
  | Element _ _ kids => n :: List.flat_map elementsOf kids
  | _ => []
  end.

Definition hasTag (name : string) (n : Node) : bool :=
  match n with
  | Element t _ _ => String.eqb t name
  | _ => false
  end.

(** [document.getElementsByTagName(name)]: the descendant elements
    whose qualified name is [name], in tree order. *)
Definition getElementsByTagName (d : Document) (name : string) : list Node :=
  List.filter (hasTag name) (List.flat_map elementsOf (documentChildren d)).

(** The concatenated data of the text nodes below a node. *)
Fixpoint descendantText (n : Node) : string :=
  match n with
  | Element _ _ kids =>
      List.fold_right (fun k acc => descendantText k +:+ acc) EmptyString kids
  | Text s => s
  | Comment _ => EmptyString
  end.

(** [node.textContent] *)
Definition textContent (n : Node) : string :=
  match n with
  | Comment s => s
  | _ => descendantText n
  end.

End Dom.
Import Dom.

(** ** Exceptions and host calls *)

(** A thrown JavaScript [Error] (or [DOMException]); the handler in the
    component reads nothing but its [message]. *)
Record Exn : Type := Error { message : string }.

(** The calls a run makes into the platform. *)
Inductive HostCall : Type :=
| CallParseFromString (text : string)
| CallImportStylesheet (stylesheet : Document)
| CallTransformToDocument (source : Document)
| CallSerializeToString (result : Document).

(** A computation that records the host calls it makes and either throws
    or returns. *)
Definition Eff (A : Type) : Type := list HostCall * (Exn + A).

Definition ret {A} (a : A) : Eff A := ([], inr a).
Definition throw {A} (e : Exn) : Eff A := ([], inl e).
Definition bind {A B} (m : Eff A) (k : A -> Eff B) : Eff B :=
  match m with
  | (tr, inl e) => (tr, inl e)
  | (tr, inr a) => let '(tr', r) := k a in (tr ++ tr', r)
  end.
Definition call {A} (c : HostCall) (r : Exn + A) : Eff A := ([c], r).

Notation "x <- m ;; k" := (bind m (fun x => k))
  (at level 100, m at next level, right associativity).
Notation "m ;;; k" := (bind m (fun _ => k))
  (at level 100, right associativity).

(** ** The platform interface *)

(** What the browser provides.  [parseFromString] never throws: a text
    the XML parser rejects comes back as a document that contains a
    [parsererror] element ([parse_failure_marked]).  [xmlWellFormed] is
    the parser's own verdict, which the DOM does not expose. *)
Class Host : Type := {
  xmlWellFormed : string -> bool;
  parseFromString : string -> Document;
  parse_failure_marked :
    forall text, xmlWellFormed text = false ->
      getElementsByTagName (parseFromString text) "parsererror" <> [];
  Processor : Type;
  newProcessor : Processor;
  importStylesheet : Processor -> Document -> Exn + Processor;
  transformToDocument : Processor -> Document -> Exn + option Document;
  serializeToString : Document -> string
}.

(** ** The component *)

Record State : Type := mkState {
  xmlCode : string;
  xsltCode : string;
  output : string;
  error : option string
}.

Definition setOutput (v : string) (st : State) : State :=
  mkState (xmlCode st) (xsltCode st) v (error st).
Definition setError (v : option string) (st : State) : State :=
  mkState (xmlCode st) (xsltCode st) (output st) v.

(** JavaScript truthiness of a string: only the empty string is falsy. *)
Definition truthy (s : string) : bool :=
  match s with
  | EmptyString => false
  | String _ _ => true
  end.

Section Pipeline.
Context {host : Host}.

(** [xs[0].textContent]; reading a property of [undefined] is a
    [TypeError]. *)
Definition firstTextContent (xs : list Node) : Eff string :=
  match xs with
  | n :: _ => ret (textContent n)
  | [] => throw (Error "Cannot read properties of undefined (reading 'textContent')")
  end.

(** The body of the [try] block of [performTransformation]. *)
Definition tryBlock (xml xslt : string) : Eff string :=
  xmlDoc <- call (CallParseFromString xml) (inr (parseFromString xml)) ;;
  xsltDoc <- call (CallParseFromString xslt) (inr (parseFromString xslt)) ;;
  (if (0 <? List.length (getElementsByTagName xmlDoc "parsererror"))%nat
   then diag <- firstTextContent (getElementsByTagName xmlDoc "parsererror") ;;
        throw (Error ("Invalid XML: " +:+ diag))
   else ret tt) ;;;
  (if (0 <? List.length (getElementsByTagName xsltDoc "parsererror"))%nat
   then diag <- firstTextContent (getElementsByTagName xsltDoc "parsererror") ;;
        throw (Error ("Invalid XSLT: " +:+ diag))
   else ret tt) ;;;
  processor <- call (CallImportStylesheet xsltDoc)
                    (importStylesheet newProcessor xsltDoc) ;;
  resultDoc <- call (CallTransformToDocument xmlDoc)
                    (transformToDocument processor xmlDoc) ;;
  match resultDoc with
  | None =>
      throw (Error "Transformation failed. The result document is null. Check XSLT for errors.")
  | Some doc =>
      resultString <- call (CallSerializeToString doc)
                           (inr (serializeToString doc)) ;;
      ret resultString
  end.

(** One run of the callback handed to [useDebouncedCallback]: the new
    component state and the host calls made. *)
Definition performTransformation (st : State) : State * list HostCall :=
  if negb (truthy (xmlCode st)) || negb (truthy (xsltCode st))
  then (setError None (setOutput EmptyString st), [])
  else
    match tryBlock (xmlCode st) (xsltCode st) with
    | (tr, inr resultString) =>
        (setError None (setOutput resultString st), tr)
    | (tr, inl e) =>
        (setOutput EmptyString
           (setError (Some ("Transformation Error: " +:+ message e)) st), tr)
    end.

End Pipeline.

(** ** Persisted buffers: [useLocalStorage] *)

(** The double quote, kept out of the literals below. *)
Definition dq : string := Eval cbv in String (ascii_of_nat 34) EmptyString.

(** The built-in sample pair. *)
Definition sampleXML : string :=
  "<?xml version=" +:+ dq +:+
  "1.0" +:+ dq +:+
  " encoding=" +:+ dq +:+
  "UTF-8" +:+ dq +:+
  "?>
<catalog>
  <book id=" +:+ dq +:+
  "bk101" +:+ dq +:+
  ">
    <author>Gambardella, Matthew</author>
    <title>XML Developer's Guide</title>
    <genre>Computer</genre>
    <price>44.95</price>
    <publish_date>2000-10-01</publish_date>
    <description>An in-depth look at creating applications with XML.</description>
  </book>
  <book id=" +:+ dq +:+
  "bk102" +:+ dq +:+
  ">
    <author>Ralls, Kim</author>
    <title>Midnight Rain</title>
    <genre>Fantasy</genre>
    <price>5.95</price>
    <publish_date>2000-12-16</publish_date>
    <description>A former architect battles corporate zombies.</description>
  </book>
</catalog>
".

Definition sampleXSLT : string :=
  "<?xml version=" +:+ dq +:+
  "1.0" +:+ dq +:+
  " encoding=" +:+ dq +:+
  "UTF-8" +:+ dq +:+
  "?>
<xsl:stylesheet version=" +:+ dq +:+
  "1.0" +:+ dq +:+
  " xmlns:xsl=" +:+ dq +:+
  "http://www.w3.org/1999/XSL/Transform" +:+ dq +:+
  ">
<xsl:template match=" +:+ dq +:+
  "/" +:+ dq +:+
  ">
  <html>
  <head>
    <style>
      body { font-family: sans-serif; margin: 2rem; background-color: #ffffff; color: #111827; }
      h1 { color: #005b96; }
      table { width: 100%; border-collapse: collapse; }
      th, td { padding: 0.5rem 0.75rem; border: 1px solid #d1d5db; text-align: left; }
      th { background-color: #0072bc; color: white; }
      tr:nth-child(even) { background-color: #f3f4f6; }
    </style>
  </head>
  <body>
    <h1>Book Catalog</h1>
    <table>
      <tr>
        <th>Author</th>
        <th>Title</th>
        <th>Genre</th>
        <th>Price</th>
      </tr>
      <xsl:for-each select=" +:+ dq +:+
  "catalog/book" +:+ dq +:+
  ">
      <tr>
        <td><xsl:value-of select=" +:+ dq +:+
  "author" +:+ dq +:+
  "/></td>
        <td><xsl:value-of select=" +:+ dq +:+
  "title" +:+ dq +:+
  "/></td>
        <td><xsl:value-of select=" +:+ dq +:+
  "genre" +:+ dq +:+
  "/></td>
        <td>$<xsl:value-of select=" +:+ dq +:+
  "price" +:+ dq +:+
  "/></td>
      </tr>
      </xsl:for-each>
    </table>
  </body>
  </html>
</xsl:template>
</xsl:stylesheet>
".

(** [window.localStorage]: the stored items and the room the user agent
    grants them, counted in characters of keys and values. *)
Record Storage : Type := mkStorage {
  items : gmap string string;
  quota : nat
}.

Definition footprint (m : gmap string string) : nat :=
  map_fold (fun k v n => (String.length k + String.length v + n)%nat) 0%nat m.

(** [storage.getItem(key)]: [None] is JavaScript's [null]. *)
Definition getItem (s : Storage) (key : string) : option string :=
  items s !! key.

(** [storage.setItem(key, value)]: throws when the new value cannot be
    held. *)
Definition setItem (s : Storage) (key value : string) : Exn + Storage :=
  let m := <[key := value]> (items s) in
  if (footprint m <=? quota s)%nat
  then inr (mkStorage m (quota s))
  else inl (Error "QuotaExceededError").

Inductive StorageCall : Type :=
| CallGetItem (key : string)
| CallSetItem (key value : string).

(** [JSON.parse] and [JSON.stringify] at the type of the stored value. *)
Class Json (T : Type) : Type := {
  JSON_parse : string -> Exn + T;
  JSON_stringify : T -> string
}.

(** What an invocation of the hook's initializer or setter leaves
    behind: the value held in component state, the storage ([None] where
    [window] is undefined), the storage calls made and the errors printed
    with [console.error]. *)
Record Stored (T : Type) : Type := mkStored {
  storedValue : T;
  windowStorage : option Storage;
  storageCalls : list StorageCall;
  consoleErrors : list Exn
}.
Arguments mkStored {T}.
Arguments storedValue {T}.
Arguments windowStorage {T}.
Arguments storageCalls {T}.
Arguments consoleErrors {T}.

Section UseLocalStorage.
Context {T : Type} {json : Json T}.

(** The initializer passed to [useState]. *)
Definition initialStoredValue (window : option Storage) (key : string)
    (initialValue : T) : Stored T :=
  match window with
  | None => mkStored initialValue window [] []
  | Some storage =>
      match getItem storage key with
      | Some item =>
          if truthy item
          then match JSON_parse item with
               | inr v => mkStored v window [CallGetItem key] []
               | inl e => mkStored initialValue window [CallGetItem key] [e]
               end
          else mkStored initialValue window [CallGetItem key] []
      | None => mkStored initialValue window [CallGetItem key] []
      end
  end.

(** The argument of the setter: a value, or a function of the current
    one. *)
Inductive SetArg : Type :=
| Plain (value : T)
| Updater (f : T -> T).

Definition valueToStore (current : T) (value : SetArg) : T :=
  match value with
  | Plain v => v
  | Updater f => f current
  end.

(** [setValue(value)] *)
Definition setValue (window : option Storage) (key : string) (current : T)
    (value : SetArg) : Stored T :=
  let v := valueToStore current value in
  match window with
  | None => mkStored v window [] []
  | Some storage =>
      let text := JSON_stringify v in
      match setItem storage key text with
      | inr storage' => mkStored v (Some storage') [CallSetItem key text] []
      | inl e => mkStored v window [CallSetItem key text] [e]
      end
  end.

End UseLocalStorage.

(** ** The component over time

    [useDebouncedCallback(f, 300)] hands out one function; calling it
    (re)arms a single timer for 300 ms later, and the timer, when it
    fires, calls the callback of the latest render.  The effect calls it
    after every render in which [xmlCode] or [xsltCode] differs from the
    previous render, and once after mounting.  Time is counted in
    milliseconds. *)

Definition quietPeriod : nat := 300.

(** One execution of the debounced callback: when it fired, the buffers
    it read and the host calls it made. *)
Record Run : Type := mkRun {
  firedAt : nat;
  readXml : string;
  readXslt : string;
  hostCalls : list HostCall
}.

Record App : Type := mkApp {
  now : nat;
  view : State;
  window : option Storage;
  timer : option nat;
  runs : list Run;
  storageLog : list StorageCall;
  console : list Exn
}.

Inductive Edit : Type :=
| EditXml (value : string)
| EditXslt (value : string)
| ClearInputs
| LoadSamples.

(** What an edit does to the pair of buffers. *)
Definition editBuffers (e : Edit) (b : string * string) : string * string :=
  match e with
  | EditXml v => (v, snd b)
  | EditXslt v => (fst b, v)
  | ClearInputs => (EmptyString, EmptyString)
  | LoadSamples => (sampleXML, sampleXSLT)
  end.

Definition buffers (app : App) : string * string :=
  (xmlCode (view app), xsltCode (view app)).

Definition sameBuffers (a b : string * string) : bool :=
  String.eqb (fst a) (fst b) && String.eqb (snd a) (snd b).

Section Component.
Context {host : Host} {json : Json string}.

(** [setXmlCode(v)] and [setXsltCode(v)]: the setters returned by
    [useLocalStorage] for the keys [xmlCode] and [xsltCode]. *)
Definition setXmlCode (v : string) (app : App) : App :=
  let r := setValue (window app) "xmlCode" (xmlCode (view app)) (Plain v) in
  mkApp (now app)
    (mkState (storedValue r) (xsltCode (view app))
       (output (view app)) (error (view app)))
    (windowStorage r) (timer app) (runs app)
    (storageLog app ++ storageCalls r) (console app ++ consoleErrors r).

Definition setXsltCode (v : string) (app : App) : App :=
  let r := setValue (window app) "xsltCode" (xsltCode (view app)) (Plain v) in
  mkApp (now app)
    (mkState (xmlCode (view app)) (storedValue r)
       (output (view app)) (error (view app)))
    (windowStorage r) (timer app) (runs app)
    (storageLog app ++ storageCalls r) (console app ++ consoleErrors r).

(** The event handlers: the editors' [onChange], [handleClear] and
    [handleLoadSamples]. *)
Definition handle (e : Edit) (app : App) : App :=
  match e with
  | EditXml v => setXmlCode v app
  | EditXslt v => setXsltCode v app
  | ClearInputs => setXsltCode EmptyString (setXmlCode EmptyString app)
  | LoadSamples => setXsltCode sampleXSLT (setXmlCode sampleXML app)
  end.

(** A call of the debounced function: the pending timer, if any, is
    replaced. *)
Definition schedule (app : App) : App :=
  mkApp (now app) (view app) (window app) (Some (now app + quietPeriod)%nat)
    (runs app) (storageLog app) (console app).

(** An edit, the render it causes and that render's effect. *)
Definition edit (e : Edit) (app : App) : App :=
  let app' := handle e app in
  if sameBuffers (buffers app) (buffers app') then app' else schedule app'.

(** The timer fires: the callback runs on the state of the latest
    render. *)
Definition fire (deadline : nat) (app : App) : App :=
  let '(v, calls) := performTransformation (view app) in
  mkApp (now app) v (window app) None
    (runs app ++ [mkRun deadline (xmlCode (view app)) (xsltCode (view app)) calls])
    (storageLog app) (console app).

(** [d] milliseconds pass without an edit. *)
Definition elapse (d : nat) (app : App) : App :=
  let t := (now app + d)%nat in
  let app' :=
    match timer app with
    | Some deadline => if (deadline <=? t)%nat then fire deadline app else app
    | None => app
    end in
  mkApp t (view app') (window app') (timer app') (runs app')
    (storageLog app') (console app').

(** A sequence of edits, each arriving [gap] milliseconds after the
    event before it. *)
Fixpoint typing (es : list (nat * Edit)) (app : App) : App :=
  match es with
  | [] => app
  | (gap, e) :: rest => typing rest (edit e (elapse gap app))
  end.

(** The component right after mounting at time [t0]: both buffers come
    from the hook's initializer and the effect has run once. *)
Definition mount (t0 : nat) (win : option Storage) : App :=
  let x := initialStoredValue win "xmlCode" sampleXML in
  let y := initialStoredValue win "xsltCode" sampleXSLT in
  schedule
    (mkApp t0 (mkState (storedValue x) (storedValue y) EmptyString None) win
       None [] (storageCalls x ++ storageCalls y)
       (consoleErrors x ++ consoleErrors y)).

End Component.

(** The buffers after a sequence of edits. *)
Fixpoint buffersAfter (es : list Edit) (b : string * string) : string * string :=
  match es with
  | [] => b
  | e :: rest => buffersAfter rest (editBuffers e b)
  end.

(** Every edit of the sequence leaves the pair of buffers different from
    what it was. *)
Fixpoint allChange (es : list Edit) (b : string * string) : bool :=
  match es with
  | [] => true
  | e :: rest =>
      negb (sameBuffers b (editBuffers e b)) && allChange rest (editBuffers e b)
  end.

(** ** What the component shows and offers

    The output panel renders [error ? <error box> : <iframe srcDoc=output>];
    the download button is disabled by [!output || !!error] and its
    handler offers the current output as a file. *)

(** JavaScript truthiness of a [string | null]. *)
Definition truthyError (e : option string) : bool :=
  match e with
  | Some m => truthy m
  | None => false
  end.

Inductive Pane : Type :=
| ErrorPane (message : string)
| Preview (srcDoc : string).

Definition outputPane (st : State) : Pane :=
  match error st with
  | Some m => if truthy m then ErrorPane m else Preview (output st)
  | None => Preview (output st)
  end.

Definition downloadDisabled (st : State) : bool :=
  negb (truthy (output st)) || truthyError (error st).

Record Blob : Type := mkBlob { blobParts : list string; blobType : string }.

(** The temporary [<a>] element of the download handler. *)
Record Anchor : Type := mkAnchor { href : string; download : string }.

(** What the download handler does to the page, in order. *)
Inductive BrowserOp : Type :=
| OpCreateObjectURL (b : Blob)
| OpAppendChild (a : Anchor)
| OpClick (a : Anchor)
| OpRemoveChild (a : Anchor)
| OpRevokeObjectURL (url : string).

Section Download.
(** [URL.createObjectURL], the platform's choice of a URL for a blob. *)
Variable createObjectURL : Blob -> string.

Definition handleDownload (st : State) : list BrowserOp :=
  let blob := mkBlob [output st] "text/html" in
  let url := createObjectURL blob in
  let a := mkAnchor url "output.html" in
  [OpCreateObjectURL blob; OpAppendChild a; OpClick a; OpRemoveChild a;
   OpRevokeObjectURL url].

End Download.

(** ** Timing conditions on the component's history

    [wellTimed t0 n app] describes a component mounted at [t0] that has
    handled [n] edits: the clock has not gone back, past runs lie in the
    past and a quiet period
    apart, none came before the first quiet period was over, there are no
    more of them than edits plus the run mounting asks for, an armed
    timer is due within a quiet period and comes a quiet period after
    every run, and without an armed timer the view is what a run on the
    current buffers leaves. *)
Definition wellTimed {host : Host} (t0 n : nat) (app : App) : Prop :=
  (t0 <= now app)%nat
  /\ (forall r, In r (runs app) ->
     (t0 + quietPeriod <= firedAt r)%nat /\ (firedAt r <= now app)%nat)
  /\ (forall i r1 r2,
        runs app !! i = Some r1 -> runs app !! S i = Some r2 ->
        (firedAt r1 + quietPeriod <= firedAt r2)%nat)
  /\ match timer app with
     | Some d =>
         (now app < d)%nat /\ (d <= now app + quietPeriod)%nat
         /\ (t0 + quietPeriod <= d)%nat
         /\ (forall r, In r (runs app) -> (firedAt r + quietPeriod <= d)%nat)
         /\ (List.length (runs app) + 1 <= n + 1)%nat
     | None =>
         fst (performTransformation (view app)) = view app
         /\ (List.length (runs app) <= n + 1)%nat
     end.

(** ** A reference platform

    A small, executable [Host] on which runs of the component can be
    evaluated: an XML parser for elements, attributes and character data
    (no declarations, comments, CDATA sections or entity references; a
    text that uses them is rejected), a processor for stylesheets made of
    one template with literal result elements and
    [<xsl:value-of select='.'/>], and the matching serializer. *)

Module SampleHost.

Definition dquote : ascii := Eval cbv in ascii_of_nat 34.
Definition squote : ascii := Eval cbv in ascii_of_nat 39.

Definition isSpace (c : ascii) : bool :=
  let n := nat_of_ascii c in
  Nat.eqb n 32 || Nat.eqb n 9 || Nat.eqb n 10 || Nat.eqb n 13.

Definition isNameStart (c : ascii) : bool :=
  let n := nat_of_ascii c in
  (Nat.leb 97 n && Nat.leb n 122) || (Nat.leb 65 n && Nat.leb n 90)
  || Nat.eqb n 95 || Nat.eqb n 58.

Definition isNameChar (c : ascii) : bool :=
  let n := nat_of_ascii c in
  isNameStart c || (Nat.leb 48 n && Nat.leb n 57) || Nat.eqb n 45 || Nat.eqb n 46.

Definition snoc (s : string) (c : ascii) : string := s +:+ String c EmptyString.

Fixpoint allSpace (s : string) : bool :=
  match s with
  | EmptyString => true
  | String c r => isSpace c && allSpace r
  end.

Fixpoint hasChar (x : ascii) (s : string) : bool :=
  match s with
  | EmptyString => false
  | String c r => Ascii.eqb c x || hasChar x r
  end.

(** The longest prefix of name characters, and what follows it. *)
Fixpoint splitName (s : string) : string * string :=
  match s with
  | EmptyString => (EmptyString, EmptyString)
  | String c r =>
      if isNameChar c
      then let '(n, rest) := splitName r in (String c n, rest)
      else (EmptyString, s)
  end.

Definition validName (n : string) : bool :=
  match n with
  | EmptyString => false
  | String c _ => isNameStart c
  end.

Inductive AttrMode : Type :=
| Between (spaced : bool)
| InName (name : string)
| AfterEq (name : string)
| InValue (name : string) (quote : ascii) (value : string).

(** The attribute list of a start tag, and whether the tag closes itself. *)
Fixpoint scanAttrs (m : AttrMode) (acc : list (string * string)) (s : string)
  : option (list (string * string) * bool) :=
  match s with
  | EmptyString =>
      match m with
      | Between _ => Some (List.rev acc, false)
      | _ => None
      end
  | String c r =>
      match m with
      | Between spaced =>
          if isSpace c then scanAttrs (Between true) acc r
          else if Ascii.eqb c "/"
               then match r with
                    | EmptyString => Some (List.rev acc, true)
                    | _ => None
                    end
          else if spaced && isNameStart c
               then scanAttrs (InName (String c EmptyString)) acc r
          else None
      | InName n =>
          if Ascii.eqb c "=" then scanAttrs (AfterEq n) acc r
          else if isNameChar c then scanAttrs (InName (snoc n c)) acc r
          else None
      | AfterEq n =>
          if Ascii.eqb c dquote || Ascii.eqb c squote
          then scanAttrs (InValue n c EmptyString) acc r
          else None
      | InValue n q v =>
          if Ascii.eqb c q then scanAttrs (Between false) ((n, v) :: acc) r
          else if Ascii.eqb c "<" || Ascii.eqb c "&" then None
          else scanAttrs (InValue n q (snoc v c)) acc r
      end
  end.

Fixpoint distinctNames (l : list (string * string)) : bool :=
  match l with
  | [] => true
  | (n, _) :: r =>
      negb (List.existsb (fun p => String.eqb (fst p) n) r) && distinctNames r
  end.

Inductive Token : Type :=
| TOpen (name : string) (attrs : list (string * string))
| TEmpty (name : string) (attrs : list (string * string))
| TClose (name : string)
| TText (data : string)
| TBad (why : string).

(** The token for the text between [<] and [>]. *)
Definition tagToken (body : string) : Token :=
  match body with
  | String "/" r =>
      let '(n, rest) := splitName r in
      if validName n && allSpace rest then TClose n
      else TBad "malformed end tag"
  | _ =>
      let '(n, rest) := splitName body in
      if validName n
      then match scanAttrs (Between false) [] rest with
           | Some (attrs, selfClosing) =>
               if distinctNames attrs
               then if selfClosing then TEmpty n attrs else TOpen n attrs
               else TBad "duplicate attribute"
           | None => TBad "malformed attribute"
           end
      else TBad "malformed start tag"
  end.

Definition textToken (acc : string) : list Token :=
  match acc with
  | EmptyString => []
  | _ => if hasChar "&" acc then [TBad "unsupported reference"] else [TText acc]
  end.

(** The tokenizer: [lexTag] carries the quote a [>] would be inside of. *)
Fixpoint lexText (acc : string) (s : string) : list Token :=
  match s with
  | EmptyString => textToken acc
  | String c r =>
      if Ascii.eqb c "<" then textToken acc ++ lexTag None EmptyString r
      else lexText (snoc acc c) r
  end
with lexTag (q : option ascii) (acc : string) (s : string) : list Token :=
  match s with
  | EmptyString => [TBad "unclosed token"]
  | String c r =>
      match q with
      | Some quote =>
          lexTag (if Ascii.eqb c quote then None else q) (snoc acc c) r
      | None =>
          if Ascii.eqb c ">" then tagToken acc :: lexText EmptyString r
          else if Ascii.eqb c "<" then [TBad "not well-formed"]
          else lexTag (if Ascii.eqb c dquote || Ascii.eqb c squote
                       then Some c else None) (snoc acc c) r
      end
  end.

(** *** Tree construction *)

(** The prefix of a qualified name, if it has one. *)
Fixpoint prefixOf (acc : string) (name : string) : option string :=
  match name with
  | EmptyString => None
  | String c r => if Ascii.eqb c ":" then Some acc else prefixOf (snoc acc c) r
  end.

(** The prefixes bound by the [xmlns:p] attributes of a start tag. *)
Fixpoint declared (attrs : list (string * string)) : list string :=
  match attrs with
  | [] => []
  | (String "x" (String "m" (String "l" (String "n" (String "s" (String ":" p))))), _) :: r =>
      p :: declared r
  | _ :: r => declared r
  end.

Definition inScope (scope : list string) (name : string) : bool :=
  match prefixOf EmptyString name with
  | None => true
  | Some p =>
      String.eqb p "xml" || String.eqb p "xmlns"
      || List.existsb (String.eqb p) scope
  end.

Definition namesBound (scope : list string) (name : string)
    (attrs : list (string * string)) : bool :=
  inScope scope name && List.forallb (fun a => inScope scope (fst a)) attrs.

(** An element whose end tag has not been read yet; [fkids] holds its
    children newest first. *)
Record Frame : Type := mkFrame {
  fname : string;
  fattrs : list (string * string);
  fscope : list string;
  fkids : list Node
}.

Definition scopeOf (stack : list Frame) : list string :=
  match stack with
  | [] => []
  | f :: _ => fscope f
  end.

Definition addKid (n : Node) (f : Frame) : Frame :=
  mkFrame (fname f) (fattrs f) (fscope f) (n :: fkids f).

(** Put a finished element under the innermost open element, or make it
    the document element. *)
Definition place (n : Node) (stack : list Frame) (root : option Node)
  : string + (list Frame * option Node) :=
  match stack with
  | f :: fs => inr (addKid n f :: fs, root)
  | [] =>
      match root with
      | None => inr ([], Some n)
      | Some _ => inl "junk after document element"
      end
  end.

Fixpoint build (stack : list Frame) (root : option Node) (toks : list Token)
  : string + Node :=
  match toks with
  | [] =>
      match stack, root with
      | [], Some n => inr n
      | [], None => inl "no element found"
      | _ :: _, _ => inl "unclosed element"
      end
  | TBad why :: _ => inl why
  | TText s :: r =>
      match stack with
      | [] => if allSpace s then build [] root r
              else inl "text outside the document element"
      | f :: fs => build (addKid (Text s) f :: fs) root r
      end
  | TOpen n a :: r =>
      let scope := declared a ++ scopeOf stack in
      if namesBound scope n a
      then match stack, root with
           | [], Some _ => inl "junk after document element"
           | _, _ => build (mkFrame n a scope [] :: stack) root r
           end
      else inl "unbound prefix"
  | TEmpty n a :: r =>
      if namesBound (declared a ++ scopeOf stack) n a
      then match place (Element n a []) stack root with
           | inr (stack', root') => build stack' root' r
           | inl why => inl why
           end
      else inl "unbound prefix"
  | TClose n :: r =>
      match stack with
      | [] => inl "unexpected end tag"
      | f :: fs =>
          if String.eqb (fname f) n
          then match place (Element n (fattrs f) (List.rev (fkids f))) fs root with
               | inr (stack', root') => build stack' root' r
               | inl why => inl why
               end
          else inl "mismatched tag"
      end
  end.

(** The XML parser proper: the document element, or a diagnostic. *)
Definition parseXml (text : string) : string + Node :=
  build [] None (lexText EmptyString text).

Definition wellFormed (text : string) : bool :=
  match parseXml text with
  | inr _ => true
  | inl _ => false
  end.

(** The document handed back for a rejected text: a lone [parsererror]
    element that carries the diagnostic. *)
Definition errorDocument (why : string) : Document :=
  mkDocument
    [Element "parsererror"
       [("xmlns", "http://www.mozilla.org/newlayout/xml/parsererror.xml")]
       [Text ("XML Parsing Error: " +:+ why)]].

Definition parse (text : string) : Document :=
  match parseXml text with
  | inr root => mkDocument [root]
  | inl why => errorDocument why
  end.

(** *** The stylesheet processor *)

Definition xsltNamespace : string := "http://www.w3.org/1999/XSL/Transform".

Fixpoint attribute (name : string) (attrs : list (string * string)) : option string :=
  match attrs with
  | [] => None
  | (n, v) :: r => if String.eqb n name then Some v else attribute name r
  end.

Definition isXsl (name : string) : bool :=
  match prefixOf EmptyString name with
  | Some p => String.eqb p "xsl"
  | None => false
  end.

(** Instantiate a template body against a source whose string value is
    [sourceText]; [None] when the body uses an instruction outside the
    supported fragment. *)
Fixpoint instantiate (sourceText : string) (n : Node) : option (list Node) :=
  match n with
  | Element t a kids =>
      if String.eqb t "xsl:value-of"
      then match attribute "select" a with
           | Some "." => Some [Text sourceText]
           | _ => None
           end
      else if isXsl t then None
      else
        match
          (fix each (ks : list Node) : option (list Node) :=
             match ks with
             | [] => Some []
             | k :: r =>
                 match instantiate sourceText k, each r with
                 | Some out, Some outs => Some (out ++ outs)
                 | _, _ => None
                 end
             end) kids
        with
        | Some kids' => Some [Element t a kids']
        | None => None
        end
  | Text s => Some [Text s]
  | Comment _ => Some []
  end.

Definition isRootTemplate (n : Node) : bool :=
  match n with
  | Element t a _ =>
      String.eqb t "xsl:template"
      && match attribute "match" a with
         | Some "/" => true
         | _ => false
         end
  | _ => false
  end.

Definition sourceValue (d : Document) : string :=
  List.fold_right (fun k acc => descendantText k +:+ acc) EmptyString
    (documentChildren d).

(** Apply a stylesheet document: [None] (a null result) unless it is an
    [xsl:stylesheet] in the XSLT namespace whose first root template
    instantiates to exactly one element. *)
Definition applyStylesheet (stylesheet source : Document) : option Document :=
  match documentChildren stylesheet with
  | [Element t a kids] =>
      if (String.eqb t "xsl:stylesheet" || String.eqb t "xsl:transform")
         && match attribute "xmlns:xsl" a with
            | Some ns => String.eqb ns xsltNamespace
            | None => false
            end
      then match List.find isRootTemplate kids with
           | Some (Element _ _ body) =>
               match body with
               | [b] =>
                   match instantiate (sourceValue source) b with
                   | Some [Element rt ra rk] => Some (mkDocument [Element rt ra rk])
                   | _ => None
                   end
               | _ => None
               end
           | _ => None
           end
      else None
  | _ => None
  end.

(** *** The serializer *)

Fixpoint escape (inAttribute : bool) (s : string) : string :=
  match s with
  | EmptyString => EmptyString
  | String c r =>
      (if Ascii.eqb c "&" then "&amp;"
       else if Ascii.eqb c "<" then "&lt;"
       else if Ascii.eqb c ">" then "&gt;"
       else if inAttribute && Ascii.eqb c dquote then "&quot;"
       else String c EmptyString) +:+ escape inAttribute r
  end.

Fixpoint serializeAttrs (attrs : list (string * string)) : string :=
  match attrs with
  | [] => EmptyString
  | (n, v) :: r =>
      " " +:+ n +:+ "=" +:+ String dquote (escape true v)
      +:+ String dquote (serializeAttrs r)
  end.

Fixpoint serializeNode (n : Node) : string :=
  match n with
  | Element t a [] => "<" +:+ t +:+ serializeAttrs a +:+ "/>"
  | Element t a kids =>
      "<" +:+ t +:+ serializeAttrs a +:+ ">"
      +:+ List.fold_right (fun k acc => serializeNode k +:+ acc) EmptyString kids
      +:+ "</" +:+ t +:+ ">"
  | Text s => escape false s
  | Comment s => "<!--" +:+ s +:+ "-->"
  end.

Definition serialize (d : Document) : string :=
  List.fold_right (fun k acc => serializeNode k +:+ acc) EmptyString
    (documentChildren d).

(** *** The instance *)

(** An [XSLTProcessor] is the stylesheet it has imported, if any. *)
#[export] Instance sampleHost : Host.
Proof.
  refine {|
    xmlWellFormed := wellFormed;
    parseFromString := parse;
    parse_failure_marked := _;
    Processor := option Document;
    newProcessor := None;
    importStylesheet := fun _ stylesheet => inr (Some stylesheet);
    transformToDocument := fun p source =>
      match p with
      | Some stylesheet => inr (applyStylesheet stylesheet source)
      | None => inr None
      end;
    serializeToString := serialize
  |}.
  intros text. unfold wellFormed, parse.
  destruct (parseXml text) as [why | root]; [| discriminate].
  intros _. discriminate.
Defined.

(** *** JSON at type [string]

    Only string literals have an image in [string]; any other stored
    text is answered with a [SyntaxError]. *)

Definition backslash : ascii := Eval cbv in ascii_of_nat 92.

Definition escapeChar (c : ascii) : string :=
  if Ascii.eqb c dquote then String backslash (String dquote EmptyString)
  else if Ascii.eqb c backslash then String backslash (String backslash EmptyString)
  else if Nat.eqb (nat_of_ascii c) 10 then String backslash "n"
  else if Nat.eqb (nat_of_ascii c) 13 then String backslash "r"
  else if Nat.eqb (nat_of_ascii c) 9 then String backslash "t"
  else String c EmptyString.

Fixpoint escapeJson (s : string) : string :=
  match s with
  | EmptyString => EmptyString
  | String c r => escapeChar c +:+ escapeJson r
  end.

Definition stringify (s : string) : string :=
  String dquote (escapeJson s +:+ String dquote EmptyString).

Definition unescapeChar (c : ascii) : option ascii :=
  if Ascii.eqb c dquote || Ascii.eqb c backslash || Ascii.eqb c "/" then Some c
  else if Ascii.eqb c "n" then Some (ascii_of_nat 10)
  else if Ascii.eqb c "r" then Some (ascii_of_nat 13)
  else if Ascii.eqb c "t" then Some (ascii_of_nat 9)
  else None.

(** The characters after the opening quote, up to the closing quote that
    must end the text. *)
Fixpoint unescapeJson (escaped : bool) (s : string) : option string :=
  match s with
  | EmptyString => None
  | String c r =>
      if escaped
      then match unescapeChar c, unescapeJson false r with
           | Some c', Some rest => Some (String c' rest)
           | _, _ => None
           end
      else if Ascii.eqb c dquote
           then match r with
                | EmptyString => Some EmptyString
                | _ => None
                end
      else if Ascii.eqb c backslash then unescapeJson true r
      else if Nat.ltb (nat_of_ascii c) 32 then None
      else match unescapeJson false r with
           | Some rest => Some (String c rest)
           | None => None
           end
  end.

Definition parseJson (text : string) : Exn + string :=
  match text with
  | String c r =>
      if Ascii.eqb c dquote
      then match unescapeJson false r with
           | Some s => inr s
           | None => inl (Error "SyntaxError: bad string literal")
           end
      else inl (Error "SyntaxError: unexpected token")
  | EmptyString => inl (Error "SyntaxError: unexpected end of JSON input")
  end.

#[export] Instance sampleJson : Json string := {|
  JSON_parse := parseJson;
  JSON_stringify := stringify
|}.

(** *** Texts to run the component on *)

Definition lettersText : string := "<a><b>one</b><c>two</c></a>".

(** The example of a malformed document: an unclosed tag. *)
Definition unclosedText : string := "<a><b></a>".

(** A well-formed document whose only element is named [parsererror]. *)
Definition markerText : string := "<parsererror/>".

(** A well-formed stylesheet that has a [parsererror] element in its
    template. *)
Definition markerStylesheet : string :=
  "<xsl:stylesheet version='1.0' xmlns:xsl='http://www.w3.org/1999/XSL/Transform'><xsl:template match='/'><html><parsererror>no</parsererror></html></xsl:template></xsl:stylesheet>".

Definition valueStylesheet : string :=
  "<xsl:stylesheet version='1.0' xmlns:xsl='http://www.w3.org/1999/XSL/Transform'><xsl:template match='/'><html><body><xsl:value-of select='.'/></body></html></xsl:template></xsl:stylesheet>".

(** A storage whose [xmlCode] entry is corrupt and whose [xsltCode] entry
    is missing, and one with no room left. *)
Definition corruptedStorage : Storage :=
  mkStorage {[ "xmlCode" := "{oops" ]} 5000.

Definition fullStorage : Storage := mkStorage ∅ 0.

(** A stand-in for [URL.createObjectURL]. *)
Definition blobUrl (b : Blob) : string := "blob:null/sample".

(** A platform whose processor refuses, with an exception, to import a
    document that is not a stylesheet in the XSLT namespace. *)
Definition isStylesheet (d : Document) : bool :=
  match documentChildren d with
  | [Element t a _] =>
      (String.eqb t "xsl:stylesheet" || String.eqb t "xsl:transform")
      && match attribute "xmlns:xsl" a with
         | Some ns => String.eqb ns xsltNamespace
         | None => false
         end
  | _ => false
  end.

Definition strictHost : Host := {|
  xmlWellFormed := wellFormed;
  parseFromString := parse;
  parse_failure_marked := @parse_failure_marked sampleHost;
  Processor := option Document;
  newProcessor := None;
  importStylesheet := fun _ stylesheet =>
    if isStylesheet stylesheet then inr (Some stylesheet)
    else inl (Error "Component returned failure code: 0x80600001");
  transformToDocument := fun p source =>
    match p with
    | Some stylesheet => inr (applyStylesheet stylesheet source)
    | None => inr None
    end;
  serializeToString := serialize
|}.

(** Well-formed markup that is not a stylesheet: the processor answers
    it with a null result. *)
Definition plainMarkup : string := "<html><body/></html>".

End SampleHost.

(** * Properties of a pipeline run *)

Section PipelineFacts.
Context {host : Host}.

Local Abbreviation markers d := (getElementsByTagName d "parsererror").

Lemma truthy_nonempty (s : string) : truthy s = true <-> s <> EmptyString.
Proof. destruct s; simpl; split; intros; congruence. Qed.

(** A run on two non-empty buffers is the [try] block followed by one of
    the two pairs of state updates. *)
Lemma perform_nonempty (st : State) :
  truthy (xmlCode st) = true -> truthy (xsltCode st) = true ->
  performTransformation st =
    match tryBlock (xmlCode st) (xsltCode st) with
    | (tr, inr resultString) => (setError None (setOutput resultString st), tr)
    | (tr, inl e) =>
        (setOutput EmptyString
           (setError (Some ("Transformation Error: " +:+ message e)) st), tr)
    end.
Proof. intros Hx Hy. unfold performTransformation. now rewrite Hx, Hy. Qed.

Lemma perform_empty (st : State) :
  truthy (xmlCode st) && truthy (xsltCode st) = false ->
  performTransformation st = (setError None (setOutput EmptyString st), []).
Proof.
  intros H. unfold performTransformation.
  destruct (truthy (xmlCode st)), (truthy (xsltCode st)); simpl in *; congruence.
Qed.

(** The four ways through the [try] block that end in one of the
    component's own outcomes. *)
Lemma tryBlock_invalid_xml (xml xslt : string) (n : Node) (rest : list Node) :
  markers (parseFromString xml) = n :: rest ->
  tryBlock xml xslt =
    ([CallParseFromString xml; CallParseFromString xslt],
     inl (Error ("Invalid XML: " +:+ textContent n))).
Proof. intros H. unfold tryBlock. cbn. rewrite H. reflexivity. Qed.

Lemma tryBlock_invalid_xslt (xml xslt : string) (n : Node) (rest : list Node) :
  markers (parseFromString xml) = [] ->
  markers (parseFromString xslt) = n :: rest ->
  tryBlock xml xslt =
    ([CallParseFromString xml; CallParseFromString xslt],
     inl (Error ("Invalid XSLT: " +:+ textContent n))).
Proof. intros Hx Hy. unfold tryBlock. cbn. rewrite Hx, Hy. reflexivity. Qed.

Lemma tryBlock_import_throws (xml xslt : string) (e : Exn) :
  markers (parseFromString xml) = [] ->
  markers (parseFromString xslt) = [] ->
  importStylesheet newProcessor (parseFromString xslt) = inl e ->
  tryBlock xml xslt =
    ([CallParseFromString xml; CallParseFromString xslt;
      CallImportStylesheet (parseFromString xslt)], inl e).
Proof. intros Hx Hy Hi. unfold tryBlock. cbn. rewrite Hx, Hy. cbn. rewrite Hi. reflexivity. Qed.

Lemma tryBlock_transform (xml xslt : string) (p : Processor) :
  markers (parseFromString xml) = [] ->
  markers (parseFromString xslt) = [] ->
  importStylesheet newProcessor (parseFromString xslt) = inr p ->
  tryBlock xml xslt =
    let calls := [CallParseFromString xml; CallParseFromString xslt;
                  CallImportStylesheet (parseFromString xslt);
                  CallTransformToDocument (parseFromString xml)] in
    match transformToDocument p (parseFromString xml) with
    | inl e => (calls, inl e)
    | inr None =>
        (calls,
         inl (Error "Transformation failed. The result document is null. Check XSLT for errors."))
    | inr (Some doc) =>
        (calls ++ [CallSerializeToString doc], inr (serializeToString doc))
    end.
Proof.
  intros Hx Hy Hi. unfold tryBlock. cbn. rewrite Hx, Hy. cbn. rewrite Hi. cbn.
  destruct (transformToDocument p (parseFromString xml)) as [e | [doc |]];
    reflexivity.
Qed.

(** A document text the parser rejects is always reported as invalid
    XML: the rejection is visible in the tree. *)
Lemma rejected_document_reported (st : State) :
  xmlCode st <> EmptyString -> xsltCode st <> EmptyString ->
  xmlWellFormed (xmlCode st) = false ->
  exists n : Node,
    head (markers (parseFromString (xmlCode st))) = Some n
    /\ fst (performTransformation st) =
         mkState (xmlCode st) (xsltCode st) EmptyString
           (Some ("Transformation Error: Invalid XML: " +:+ textContent n)).
Proof.
  intros Hx Hy Hbad. apply truthy_nonempty in Hx, Hy.
  pose proof (parse_failure_marked (xmlCode st) Hbad) as Hmark.
  destruct (markers (parseFromString (xmlCode st))) as [| n rest] eqn:Hm;
    [congruence |].
  exists n. split; [reflexivity |].
  rewrite (perform_nonempty st Hx Hy).
  rewrite (tryBlock_invalid_xml _ _ n rest Hm). reflexivity.
Qed.

(** C2: when either buffer is the empty string the run clears the output,
    sets the error to null and makes no call into the platform, whatever
    the other buffer holds. *)
Theorem empty_buffer_short_circuit (st : State) :
  xmlCode st = EmptyString \/ xsltCode st = EmptyString ->
  performTransformation st =
    (mkState (xmlCode st) (xsltCode st) EmptyString None, []).
Proof.
  intros H. apply perform_empty.
  destruct H as [H | H]; rewrite H; simpl; [reflexivity | apply andb_false_r].
Qed.

(** C4: after a run the error is set only together with an empty output.
    A run on an empty buffer leaves both unset; a run whose [try] block
    throws sets the error and clears the output; a run whose [try] block
    returns sets the output and nulls the error.  The buffers are
    untouched. *)
Theorem output_and_error_exclusive (st : State) :
  let st' := fst (performTransformation st) in
  (error st' = None \/ output st' = EmptyString)
  /\ xmlCode st' = xmlCode st /\ xsltCode st' = xsltCode st
  /\ if truthy (xmlCode st) && truthy (xsltCode st)
     then match snd (tryBlock (xmlCode st) (xsltCode st)) with
          | inl e =>
              error st' = Some ("Transformation Error: " +:+ message e)
              /\ output st' = EmptyString
          | inr resultString =>
              output st' = resultString /\ error st' = None
          end
     else output st' = EmptyString /\ error st' = None.
Proof.
  destruct (truthy (xmlCode st) && truthy (xsltCode st)) eqn:Hb.
  - apply andb_true_iff in Hb as [Hx Hy].
    rewrite (perform_nonempty st Hx Hy).
    destruct (tryBlock (xmlCode st) (xsltCode st)) as [tr [e | r]]; simpl; auto.
  - rewrite (perform_empty st Hb). simpl. auto.
Qed.

(** C5: when the parsed document text contains a [parsererror] element,
    the run fails with the message [Invalid XML: ] followed by the text
    content of the first such element, whatever the non-empty stylesheet
    text is; the stylesheet is parsed but not inspected. *)
Theorem invalid_xml_reported (st : State) (n : Node) (rest : list Node) :
  xmlCode st <> EmptyString -> xsltCode st <> EmptyString ->
  markers (parseFromString (xmlCode st)) = n :: rest ->
  performTransformation st =
    (mkState (xmlCode st) (xsltCode st) EmptyString
       (Some ("Transformation Error: Invalid XML: " +:+ textContent n)),
     [CallParseFromString (xmlCode st); CallParseFromString (xsltCode st)]).
Proof.
  intros Hx Hy Hm. apply truthy_nonempty in Hx, Hy.
  rewrite (perform_nonempty st Hx Hy).
  rewrite (tryBlock_invalid_xml _ _ n rest Hm). reflexivity.
Qed.

(** C6 (as amended): when the parsed document text contains no
    [parsererror] element and the parsed stylesheet text contains one,
    the run fails with the message [Invalid XSLT: ] followed by the text
    content of the first such element. *)
Theorem invalid_xslt_reported (st : State) (n : Node) (rest : list Node) :
  xmlCode st <> EmptyString -> xsltCode st <> EmptyString ->
  markers (parseFromString (xmlCode st)) = [] ->
  markers (parseFromString (xsltCode st)) = n :: rest ->
  performTransformation st =
    (mkState (xmlCode st) (xsltCode st) EmptyString
       (Some ("Transformation Error: Invalid XSLT: " +:+ textContent n)),
     [CallParseFromString (xmlCode st); CallParseFromString (xsltCode st)]).
Proof.
  intros Hx Hy Hmx Hmy. apply truthy_nonempty in Hx, Hy.
  rewrite (perform_nonempty st Hx Hy).
  rewrite (tryBlock_invalid_xslt _ _ n rest Hmx Hmy). reflexivity.
Qed.

(** C1 (as amended): when neither parsed tree contains a [parsererror]
    element, the stylesheet is imported into a fresh processor and the
    transformation returns a document, the run sets the output to the
    serialization of that document and the error to null. *)
Theorem transformation_succeeds (st : State) (p : Processor) (doc : Document) :
  xmlCode st <> EmptyString -> xsltCode st <> EmptyString ->
  markers (parseFromString (xmlCode st)) = [] ->
  markers (parseFromString (xsltCode st)) = [] ->
  importStylesheet newProcessor (parseFromString (xsltCode st)) = inr p ->
  transformToDocument p (parseFromString (xmlCode st)) = inr (Some doc) ->
  performTransformation st =
    (mkState (xmlCode st) (xsltCode st) (serializeToString doc) None,
     [CallParseFromString (xmlCode st); CallParseFromString (xsltCode st);
      CallImportStylesheet (parseFromString (xsltCode st));
      CallTransformToDocument (parseFromString (xmlCode st));
      CallSerializeToString doc]).
Proof.
  intros Hx Hy Hmx Hmy Hi Ht. apply truthy_nonempty in Hx, Hy.
  rewrite (perform_nonempty st Hx Hy).
  rewrite (tryBlock_transform _ _ p Hmx Hmy Hi). cbn. rewrite Ht. reflexivity.
Qed.

(** C7 (as amended): when neither parsed tree contains a [parsererror]
    element, the stylesheet is imported and the transformation returns
    null, the run fails with the null-result message, which is neither
    of the two parse-failure messages. *)
Theorem null_result_reported (st : State) (p : Processor) :
  xmlCode st <> EmptyString -> xsltCode st <> EmptyString ->
  markers (parseFromString (xmlCode st)) = [] ->
  markers (parseFromString (xsltCode st)) = [] ->
  importStylesheet newProcessor (parseFromString (xsltCode st)) = inr p ->
  transformToDocument p (parseFromString (xmlCode st)) = inr None ->
  performTransformation st =
    (mkState (xmlCode st) (xsltCode st) EmptyString
       (Some "Transformation Error: Transformation failed. The result document is null. Check XSLT for errors."),
     [CallParseFromString (xmlCode st); CallParseFromString (xsltCode st);
      CallImportStylesheet (parseFromString (xsltCode st));
      CallTransformToDocument (parseFromString (xmlCode st))])
  /\ forall diag : string,
       "Transformation failed. The result document is null. Check XSLT for errors."
         <> "Invalid XML: " +:+ diag
       /\ "Transformation failed. The result document is null. Check XSLT for errors."
         <> "Invalid XSLT: " +:+ diag.
Proof.
  intros Hx Hy Hmx Hmy Hi Ht. apply truthy_nonempty in Hx, Hy. split.
  - rewrite (perform_nonempty st Hx Hy).
    rewrite (tryBlock_transform _ _ p Hmx Hmy Hi). cbn. rewrite Ht. reflexivity.
  - intros diag. split; discriminate.
Qed.

(** C8: an error left by a run is one string, the fixed prefix followed
    by the message of whatever the [try] block threw; the state holds
    nothing else about the failure. *)
Theorem error_has_fixed_prefix (st : State) (m : string) :
  error (fst (performTransformation st)) = Some m ->
  exists (tr : list HostCall) (e : Exn),
    tryBlock (xmlCode st) (xsltCode st) = (tr, inl e)
    /\ m = "Transformation Error: " +:+ message e.
Proof.
  destruct (truthy (xmlCode st) && truthy (xsltCode st)) eqn:Hb.
  - apply andb_true_iff in Hb as [Hx Hy].
    rewrite (perform_nonempty st Hx Hy).
    destruct (tryBlock (xmlCode st) (xsltCode st)) as [tr [e | r]]; simpl.
    + intros [= <-]. eauto.
    + discriminate.
  - rewrite (perform_empty st Hb). simpl. discriminate.
Qed.

(** C10: a text the parser accepts as well-formed is still reported as
    invalid XML when its tree contains an element named [parsererror],
    and a stylesheet text the parser accepts is reported as invalid XSLT
    in the same way: the component looks for such elements in the parsed
    tree and never at the parser's verdict. *)
Theorem parsererror_element_false_positive
    (st : State) (n : Node) (rest : list Node) :
  xmlCode st <> EmptyString -> xsltCode st <> EmptyString ->
  (xmlWellFormed (xmlCode st) = true ->
   markers (parseFromString (xmlCode st)) = n :: rest ->
   fst (performTransformation st) =
     mkState (xmlCode st) (xsltCode st) EmptyString
       (Some ("Transformation Error: Invalid XML: " +:+ textContent n)))
  /\ (xmlWellFormed (xsltCode st) = true ->
      markers (parseFromString (xmlCode st)) = [] ->
      markers (parseFromString (xsltCode st)) = n :: rest ->
      fst (performTransformation st) =
        mkState (xmlCode st) (xsltCode st) EmptyString
          (Some ("Transformation Error: Invalid XSLT: " +:+ textContent n))).
Proof.
  intros Hx Hy. apply truthy_nonempty in Hx, Hy.
  rewrite (perform_nonempty st Hx Hy). split.
  - intros _ Hm. rewrite (tryBlock_invalid_xml _ _ n rest Hm). reflexivity.
  - intros _ Hmx Hmy. rewrite (tryBlock_invalid_xslt _ _ n rest Hmx Hmy).
    reflexivity.
Qed.

End PipelineFacts.

(** ** The properties on the reference platform *)

Section PipelineRuns.
Import SampleHost.

Lemma empty_buffer_short_circuit_witness :
  performTransformation (mkState EmptyString unclosedText "stale" (Some "old"))
    = (mkState EmptyString unclosedText EmptyString None, [])
  /\ performTransformation (mkState unclosedText EmptyString "stale" (Some "old"))
    = (mkState unclosedText EmptyString EmptyString None, []).
Proof.
  split.
  - apply (empty_buffer_short_circuit
             (mkState EmptyString unclosedText "stale" (Some "old"))).
    left. reflexivity.
  - apply (empty_buffer_short_circuit
             (mkState unclosedText EmptyString "stale" (Some "old"))).
    right. reflexivity.
Defined.

Lemma invalid_xml_reported_witness :
  fst (performTransformation (mkState unclosedText unclosedText "stale" None))
    = mkState unclosedText unclosedText EmptyString
        (Some "Transformation Error: Invalid XML: XML Parsing Error: mismatched tag").
Proof.
  erewrite invalid_xml_reported;
    [| discriminate | discriminate | reflexivity].
  reflexivity.
Defined.

Lemma invalid_xslt_reported_witness :
  fst (performTransformation (mkState lettersText unclosedText "stale" None))
    = mkState lettersText unclosedText EmptyString
        (Some "Transformation Error: Invalid XSLT: XML Parsing Error: mismatched tag").
Proof.
  erewrite invalid_xslt_reported;
    [| discriminate | discriminate | reflexivity | reflexivity].
  reflexivity.
Defined.

Lemma transformation_succeeds_witness :
  fst (performTransformation (mkState lettersText valueStylesheet "stale" (Some "old")))
    = mkState lettersText valueStylesheet "<html><body>onetwo</body></html>" None.
Proof.
  erewrite transformation_succeeds;
    [| discriminate | discriminate
     | reflexivity | reflexivity | reflexivity | reflexivity].
  reflexivity.
Defined.

Lemma null_result_reported_witness :
  fst (performTransformation (mkState lettersText plainMarkup "stale" None))
    = mkState lettersText plainMarkup EmptyString
        (Some "Transformation Error: Transformation failed. The result document is null. Check XSLT for errors.").
Proof.
  destruct (null_result_reported (host := sampleHost)
              (mkState lettersText plainMarkup "stale" None)
              (Some (parse plainMarkup))) as [Hrun _];
    [discriminate | discriminate
     | reflexivity | reflexivity | reflexivity | reflexivity |].
  rewrite Hrun. reflexivity.
Defined.

Lemma error_has_fixed_prefix_witness :
  exists (tr : list HostCall) (e : Exn),
    tryBlock unclosedText valueStylesheet = (tr, inl e)
    /\ "Transformation Error: Invalid XML: XML Parsing Error: mismatched tag"
       = "Transformation Error: " +:+ message e.
Proof.
  apply (error_has_fixed_prefix
           (mkState unclosedText valueStylesheet EmptyString None)).
  reflexivity.
Defined.

Lemma parsererror_element_false_positive_witness :
  (xmlWellFormed markerText = true
   /\ fst (performTransformation (mkState markerText valueStylesheet EmptyString None))
      = mkState markerText valueStylesheet EmptyString
          (Some "Transformation Error: Invalid XML: "))
  /\ (xmlWellFormed markerStylesheet = true
      /\ fst (performTransformation (mkState lettersText markerStylesheet EmptyString None))
         = mkState lettersText markerStylesheet EmptyString
             (Some "Transformation Error: Invalid XSLT: no")).
Proof.
  split; (split; [reflexivity |]).
  - destruct (parsererror_element_false_positive
                (mkState markerText valueStylesheet EmptyString None)
                (Element "parsererror" [] []) []) as [Hxml _];
      [discriminate | discriminate |].
    apply Hxml; reflexivity.
  - destruct (parsererror_element_false_positive
                (mkState lettersText markerStylesheet EmptyString None)
                (Element "parsererror" [] [Text "no"]) []) as [_ Hxslt];
      [discriminate | discriminate |].
    apply Hxslt; reflexivity.
Defined.

(** C1 fails as stated: both texts are non-empty and accepted by the
    parser, the processor imports the stylesheet and transforms the
    document to a result, and yet the run reports invalid XML, because
    the document element is named [parsererror]. *)
Lemma accepted_pair_reported_invalid :
  let st := mkState markerText valueStylesheet EmptyString None in
  markerText <> EmptyString /\ valueStylesheet <> EmptyString
  /\ xmlWellFormed markerText = true /\ xmlWellFormed valueStylesheet = true
  /\ (exists (p : Processor) (doc : Document),
        importStylesheet newProcessor (parseFromString valueStylesheet) = inr p
        /\ transformToDocument p (parseFromString markerText) = inr (Some doc))
  /\ error (fst (performTransformation st))
       = Some "Transformation Error: Invalid XML: "
  /\ output (fst (performTransformation st)) = EmptyString.
Proof.
  repeat split; try discriminate.
  exists (Some (parse valueStylesheet)).
  exists (mkDocument [Element "html" [] [Element "body" [] [Text EmptyString]]]).
  split; reflexivity.
Qed.

(** C6 fails as stated: the document text is non-empty and accepted by
    the parser, the stylesheet text is malformed, and the run reports
    invalid XML instead of invalid XSLT. *)
Lemma malformed_stylesheet_reported_as_xml :
  let st := mkState markerText unclosedText EmptyString None in
  markerText <> EmptyString /\ unclosedText <> EmptyString
  /\ xmlWellFormed markerText = true
  /\ xmlWellFormed unclosedText = false
  /\ getElementsByTagName (parseFromString unclosedText) "parsererror" <> []
  /\ error (fst (performTransformation st))
       = Some "Transformation Error: Invalid XML: ".
Proof. repeat split; discriminate. Qed.

(** C7 fails as stated: both texts are non-empty and accepted by the
    parser, the transformation of the parsed document returns null, and
    the run reports invalid XML, the message of a parse failure. *)
Lemma null_result_reported_as_xml :
  let st := mkState markerText plainMarkup EmptyString None in
  markerText <> EmptyString /\ plainMarkup <> EmptyString
  /\ xmlWellFormed markerText = true /\ xmlWellFormed plainMarkup = true
  /\ (exists p : Processor,
        importStylesheet newProcessor (parseFromString plainMarkup) = inr p
        /\ transformToDocument p (parseFromString markerText) = inr None)
  /\ error (fst (performTransformation st))
       = Some "Transformation Error: Invalid XML: ".
Proof.
  repeat split; try discriminate.
  exists (Some (parse plainMarkup)). split; reflexivity.
Qed.

End PipelineRuns.

(** * Properties of the persisted buffers *)

Section StorageFacts.
Context {T : Type} {json : Json T}.

Lemma storedValue_setValue (window : option Storage) (key : string)
    (current : T) (value : SetArg) :
  storedValue (setValue window key current value) = valueToStore current value.
Proof.
  unfold setValue. destruct window as [storage |]; [| reflexivity].
  destruct (setItem storage key _); reflexivity.
Qed.

(** An accepted write is read back under its key and leaves the other
    keys alone. *)
Lemma getItem_setItem (s s' : Storage) (key value : string) :
  setItem s key value = inr s' ->
  getItem s' key = Some value
  /\ forall k, k <> key -> getItem s' k = getItem s k.
Proof.
  unfold setItem, getItem.
  destruct (footprint _ <=? quota s)%nat; [| discriminate].
  intros [= <-]. simpl. split.
  - apply lookup_insert_eq.
  - intros k Hk. apply lookup_insert_ne. congruence.
Qed.

(** C9: in a browser, a buffer whose stored entry is absent, or is a
    text [JSON.parse] throws on, starts as the built-in default; no
    exception leaves the initializer (a decoding error is printed on the
    console) and the storage is left as it was.  Every call of the setter
    changes the buffer and issues one write of the JSON-encoded new value
    under the hook's key; a write the storage accepts is what the key
    holds afterwards, a write it rejects is printed on the console. *)
Theorem persisted_buffer_lifecycle (window : option Storage) (storage : Storage)
    (key : string) (initialValue current : T) (value : SetArg) :
  window = Some storage ->
  ((getItem storage key = None
    \/ exists (item : string) (e : Exn),
         getItem storage key = Some item /\ JSON_parse item = inl e) ->
   let r := initialStoredValue window key initialValue in
   storedValue r = initialValue /\ windowStorage r = window
   /\ storageCalls r = [CallGetItem key])
  /\ (let r := setValue window key current value in
      let v := valueToStore current value in
      storedValue r = v
      /\ storageCalls r = [CallSetItem key (JSON_stringify v)]
      /\ match setItem storage key (JSON_stringify v) with
         | inr storage' =>
             windowStorage r = Some storage'
             /\ getItem storage' key = Some (JSON_stringify v)
             /\ (forall k, k <> key -> getItem storage' k = getItem storage k)
             /\ consoleErrors r = []
         | inl e => windowStorage r = window /\ consoleErrors r = [e]
         end).
Proof.
  intros ->. split.
  - intros Hentry. unfold initialStoredValue.
    destruct Hentry as [Habsent | (item & e & Hitem & Hparse)].
    + rewrite Habsent. auto.
    + rewrite Hitem, Hparse. destruct (truthy item); auto.
  - unfold setValue.
    destruct (setItem storage key (JSON_stringify (valueToStore current value)))
      as [e | storage'] eqn:Hset; simpl; auto.
    destruct (getItem_setItem _ _ _ _ Hset) as [Hkey Hothers].
    repeat split; assumption.
Qed.

End StorageFacts.

Section StorageRuns.
Import SampleHost.

Lemma persisted_buffer_lifecycle_witness :
  storedValue (initialStoredValue (Some corruptedStorage) "xmlCode" sampleXML) = sampleXML
  /\ storedValue (initialStoredValue (Some corruptedStorage) "xsltCode" sampleXSLT) = sampleXSLT
  /\ storageCalls (setValue (Some corruptedStorage) "xmlCode" sampleXML (Plain lettersText))
     = [CallSetItem "xmlCode" (stringify lettersText)].
Proof.
  destruct (persisted_buffer_lifecycle (Some corruptedStorage) corruptedStorage "xmlCode"
              sampleXML sampleXML (Plain lettersText) eq_refl)
    as [Hxml [_ [Hwrite _]]].
  destruct (persisted_buffer_lifecycle (Some corruptedStorage) corruptedStorage "xsltCode"
              sampleXSLT sampleXSLT (Plain lettersText) eq_refl)
    as [Hxslt _].
  split; [| split].
  - apply Hxml. right.
    exists "{oops", (Error "SyntaxError: unexpected token").
    split; reflexivity.
  - apply Hxslt. left. reflexivity.
  - exact Hwrite.
Defined.

End StorageRuns.

(** * Properties of the debounced re-run *)

Section ComponentFacts.
Context {host : Host} {json : Json string}.

Lemma sameBuffers_refl (b : string * string) : sameBuffers b b = true.
Proof. unfold sameBuffers. now rewrite !String.eqb_refl. Qed.

(** The handlers change the buffers as [editBuffers] says, and neither
    the clock, the timer nor the record of runs. *)
Lemma handle_buffers (e : Edit) (app : App) :
  buffers (handle e app) = editBuffers e (buffers app).
Proof.
  destruct e; unfold handle, setXsltCode, setXmlCode, buffers; simpl;
    rewrite ?storedValue_setValue; reflexivity.
Qed.

Lemma handle_frame (e : Edit) (app : App) :
  now (handle e app) = now app /\ timer (handle e app) = timer app
  /\ runs (handle e app) = runs app.
Proof. destruct e; simpl; auto. Qed.

(** An edit that changes a buffer arms the timer one quiet period ahead
    and runs nothing. *)
Lemma edit_changing (e : Edit) (app : App) :
  sameBuffers (buffers app) (editBuffers e (buffers app)) = false ->
  now (edit e app) = now app
  /\ timer (edit e app) = Some (now app + quietPeriod)%nat
  /\ runs (edit e app) = runs app
  /\ buffers (edit e app) = editBuffers e (buffers app).
Proof.
  intros Hchange. unfold edit.
  destruct (handle_frame e app) as (Hnow & _ & Hruns).
  rewrite (handle_buffers e app), Hchange. unfold schedule, buffers. simpl.
  rewrite Hnow, Hruns. repeat split.
  apply (handle_buffers e app).
Qed.

(** While the armed timer is not due, time passes and nothing else
    happens. *)
Lemma elapse_before_deadline (d deadline : nat) (app : App) :
  timer app = Some deadline -> (now app + d < deadline)%nat ->
  now (elapse d app) = (now app + d)%nat
  /\ timer (elapse d app) = Some deadline
  /\ runs (elapse d app) = runs app
  /\ view (elapse d app) = view app.
Proof.
  intros Htimer Hlt. unfold elapse. rewrite Htimer.
  destruct (Nat.leb_spec deadline (now app + d)) as [Hle | _]; [lia |].
  simpl. auto.
Qed.

(** When the armed timer is due, the callback runs once, at the
    deadline, on the buffers of the latest render. *)
Lemma elapse_past_deadline (d deadline : nat) (app : App) :
  timer app = Some deadline -> (deadline <= now app + d)%nat ->
  timer (elapse d app) = None
  /\ view (elapse d app) = fst (performTransformation (view app))
  /\ runs (elapse d app) =
       runs app ++ [mkRun deadline (xmlCode (view app)) (xsltCode (view app))
                      (snd (performTransformation (view app)))].
Proof.
  intros Htimer Hle. unfold elapse, fire. rewrite Htimer.
  destruct (Nat.leb_spec deadline (now app + d)) as [_ | Hlt]; [| lia].
  destruct (performTransformation (view app)) as [v calls]. simpl. auto.
Qed.

Lemma elapse_idle (d : nat) (app : App) :
  timer app = None ->
  runs (elapse d app) = runs app /\ view (elapse d app) = view app
  /\ timer (elapse d app) = None.
Proof. intros Htimer. unfold elapse. rewrite Htimer. simpl. auto. Qed.

(** A burst of changing edits, each less than a quiet period after the
    one before, started with the timer freshly armed: no run happens, the
    timer ends armed one quiet period after the last edit and the buffers
    are those the edits produce. *)
Lemma typing_burst (es : list (nat * Edit)) (app : App) :
  timer app = Some (now app + quietPeriod)%nat ->
  allChange (List.map snd es) (buffers app) = true ->
  Forall (fun ge => (fst ge < quietPeriod)%nat) es ->
  timer (typing es app) = Some (now (typing es app) + quietPeriod)%nat
  /\ runs (typing es app) = runs app
  /\ buffers (typing es app) = buffersAfter (List.map snd es) (buffers app).
Proof.
  revert app. induction es as [| [gap e] rest IH]; intros app Harmed Hchange Hgaps.
  - simpl. auto.
  - simpl in *. apply andb_true_iff in Hchange as [Hfirst Hrest].
    apply negb_true_iff in Hfirst.
    inversion Hgaps as [| ? ? Hgap Hgaps']; subst. simpl in Hgap.
    destruct (elapse_before_deadline gap _ app Harmed) as (Hnow & Htimer & Hruns & Hview);
      [lia |].
    assert (Hbuf : buffers (elapse gap app) = buffers app)
      by (unfold buffers; now rewrite Hview).
    destruct (edit_changing e (elapse gap app)) as (Hnow' & Htimer' & Hruns' & Hbuf');
      [now rewrite Hbuf |].
    destruct (IH (edit e (elapse gap app))) as (Ht & Hr & Hb).
    + now rewrite Htimer', Hnow'.
    + now rewrite Hbuf', Hbuf.
    + assumption.
    + rewrite Ht, Hr, Hb, Hruns', Hruns, Hbuf', Hbuf. auto.
Qed.

(** C3: a burst of edits, each changing a buffer and each arriving less
    than the quiet period after the one before, runs the transformation
    exactly once: nothing runs during the burst, whatever timer was
    pending before it is replaced, and once a quiet period has passed
    after the last edit the callback has run a single time, one quiet
    period after that edit, on the buffers the edits produced; no timer
    is left and further waiting runs nothing more. *)
Theorem burst_runs_once (app : App) (e : Edit) (es : list (nat * Edit))
    (wait more : nat) :
  allChange (e :: List.map snd es) (buffers app) = true ->
  Forall (fun ge => (fst ge < quietPeriod)%nat) es ->
  (quietPeriod <= wait)%nat ->
  let settled := typing es (edit e app) in
  let final := buffersAfter (e :: List.map snd es) (buffers app) in
  let after := elapse wait settled in
  buffers settled = final
  /\ runs settled = runs app
  /\ runs after =
       runs app ++ [mkRun (now settled + quietPeriod)%nat (fst final) (snd final)
                      (snd (performTransformation (view settled)))]
  /\ view after = fst (performTransformation (view settled))
  /\ timer after = None
  /\ runs (elapse more after) = runs after.
Proof.
  intros Hchange Hgaps Hwait. simpl in Hchange.
  apply andb_true_iff in Hchange as [Hfirst Hrest].
  apply negb_true_iff in Hfirst.
  destruct (edit_changing e app Hfirst) as (Hnow & Htimer & Hruns & Hbuf).
  destruct (typing_burst es (edit e app)) as (Ht & Hr & Hb).
  { now rewrite Htimer, Hnow. }
  { now rewrite Hbuf. }
  { assumption. }
  destruct (elapse_past_deadline wait _ _ Ht) as (Hidle & Hview & Hrun); [lia |].
  destruct (elapse_idle more _ Hidle) as (Hmore & _ & _).
  rewrite Hbuf in Hb.
  pose proof (f_equal fst Hb) as Hx. pose proof (f_equal snd Hb) as Hy.
  unfold buffers in Hx at 1, Hy at 1. simpl fst in Hx. simpl snd in Hy.
  cbn zeta. simpl buffersAfter.
  rewrite Hb, Hr, Hruns, Hrun, Hr, Hruns, Hview, Hidle, Hmore, Hrun, Hr, Hruns.
  rewrite Hx, Hy. repeat split.
Qed.

End ComponentFacts.

Section ComponentRuns.
Import SampleHost.

(** Three edits 120 ms and 299 ms apart, the first 100 ms after mounting:
    the run scheduled by mounting never happens, and the single run comes
    300 ms after the third edit. *)
Lemma burst_runs_once_witness :
  let app := elapse 100 (mount 0 (Some corruptedStorage)) in
  let es := [(120, EditXslt valueStylesheet); (299, EditXml lettersText)] in
  let after := elapse 300 (typing es (edit (EditXml unclosedText) app)) in
  List.map (fun r => (firedAt r, readXml r, readXslt r)) (runs after)
    = [(819, lettersText, valueStylesheet)]
  /\ output (view after) = "<html><body>onetwo</body></html>"
  /\ error (view after) = None.
Proof.
  intros app es after.
  destruct (burst_runs_once app (EditXml unclosedText) es 300 0)
    as (_ & _ & Hruns & Hview & _).
  - vm_compute. reflexivity.
  - unfold es, quietPeriod. repeat constructor; simpl; lia.
  - unfold quietPeriod. lia.
  - subst after. rewrite Hruns, Hview. vm_compute. repeat split.
Defined.

(** A write the storage has no room for changes the buffer in memory
    only; the error goes to the console. *)
Example rejected_write :
  setValue (Some fullStorage) "xmlCode" sampleXML (Plain lettersText)
    = mkStored lettersText (Some fullStorage)
        [CallSetItem "xmlCode" (stringify lettersText)]
        [Error "QuotaExceededError"].
Proof. vm_compute. reflexivity. Qed.

End ComponentRuns.

(** * Further properties of a pipeline run *)

Section RunFacts.
Context {host : Host}.

Local Abbreviation markers d := (getElementsByTagName d "parsererror").

(** Every way through the [try] block. *)
Lemma tryBlock_cases (xml xslt : string) :
  tryBlock xml xslt =
    let xmlDoc := parseFromString xml in
    let xsltDoc := parseFromString xslt in
    let parsed := [CallParseFromString xml; CallParseFromString xslt] in
    match markers xmlDoc with
    | n :: _ => (parsed, inl (Error ("Invalid XML: " +:+ textContent n)))
    | [] =>
        match markers xsltDoc with
        | n :: _ => (parsed, inl (Error ("Invalid XSLT: " +:+ textContent n)))
        | [] =>
            match importStylesheet newProcessor xsltDoc with
            | inl e => (parsed ++ [CallImportStylesheet xsltDoc], inl e)
            | inr p =>
                let called :=
                  parsed ++ [CallImportStylesheet xsltDoc;
                             CallTransformToDocument xmlDoc] in
                match transformToDocument p xmlDoc with
                | inl e => (called, inl e)
                | inr None =>
                    (called,
                     inl (Error "Transformation failed. The result document is null. Check XSLT for errors."))
                | inr (Some doc) =>
                    (called ++ [CallSerializeToString doc],
                     inr (serializeToString doc))
                end
            end
        end
    end.
Proof.
  cbv zeta.
  destruct (markers (parseFromString xml)) as [| n rest] eqn:Hx.
  - destruct (markers (parseFromString xslt)) as [| m rest] eqn:Hy.
    + destruct (importStylesheet newProcessor (parseFromString xslt))
        as [e | p] eqn:Hi.
      * apply (tryBlock_import_throws _ _ e Hx Hy Hi).
      * rewrite (tryBlock_transform _ _ p Hx Hy Hi). cbv zeta.
        destruct (transformToDocument p (parseFromString xml)) as [e | [doc |]];
          reflexivity.
    + apply (tryBlock_invalid_xslt _ _ m rest Hx Hy).
  - apply (tryBlock_invalid_xml _ _ n rest Hx).
Qed.

Lemma perform_keeps_buffers (st : State) :
  xmlCode (fst (performTransformation st)) = xmlCode st
  /\ xsltCode (fst (performTransformation st)) = xsltCode st.
Proof.
  unfold performTransformation.
  destruct (negb (truthy (xmlCode st)) || negb (truthy (xsltCode st)));
    [simpl; auto |].
  destruct (tryBlock (xmlCode st) (xsltCode st)) as [tr [e | r]]; simpl; auto.
Qed.

Lemma perform_same_buffers (a b : State) :
  xmlCode a = xmlCode b -> xsltCode a = xsltCode b ->
  performTransformation a = performTransformation b.
Proof.
  intros Hx Hy. unfold performTransformation, setError, setOutput.
  rewrite Hx, Hy.
  destruct (negb (truthy (xmlCode b)) || negb (truthy (xsltCode b)));
    [reflexivity |].
  destruct (tryBlock (xmlCode b) (xsltCode b)) as [tr [e | r]]; simpl;
    rewrite ?Hx, ?Hy; reflexivity.
Qed.

Lemma perform_again (st : State) :
  performTransformation (fst (performTransformation st))
    = performTransformation st.
Proof.
  destruct (perform_keeps_buffers st) as [Hx Hy].
  apply perform_same_buffers; assumption.
Qed.

Lemma perform_settled (st : State) :
  fst (performTransformation (fst (performTransformation st)))
    = fst (performTransformation st).
Proof. now rewrite perform_again. Qed.

(** X1: the outcome of a run is a function of the two buffers alone:
    two states with the same buffers, whatever output and error they
    hold, are taken to the same state by the same host calls; the old
    result never shows through. *)
Theorem run_reads_buffers_only (a b : State) :
  xmlCode a = xmlCode b -> xsltCode a = xsltCode b ->
  performTransformation a = performTransformation b.
Proof.
  intros Hx Hy. unfold performTransformation, setError, setOutput.
  rewrite Hx, Hy.
  destruct (negb (truthy (xmlCode b)) || negb (truthy (xsltCode b)));
    [reflexivity |].
  destruct (tryBlock (xmlCode b) (xsltCode b)) as [tr [e | r]]; simpl;
    rewrite ?Hx, ?Hy; reflexivity.
Qed.

(** X2: an exception thrown by [importStylesheet], or by
    [transformToDocument] after a successful import, is caught: its
    message is shown behind the fixed prefix, the output is cleared and
    the serializer is not called. *)
Theorem platform_exception_surfaced (st : State) (e : Exn) :
  xmlCode st <> EmptyString -> xsltCode st <> EmptyString ->
  markers (parseFromString (xmlCode st)) = [] ->
  markers (parseFromString (xsltCode st)) = [] ->
  (importStylesheet newProcessor (parseFromString (xsltCode st)) = inl e
   \/ exists p : Processor,
        importStylesheet newProcessor (parseFromString (xsltCode st)) = inr p
        /\ transformToDocument p (parseFromString (xmlCode st)) = inl e) ->
  fst (performTransformation st) =
    mkState (xmlCode st) (xsltCode st) EmptyString
      (Some ("Transformation Error: " +:+ message e))
  /\ forall doc, ~ In (CallSerializeToString doc) (snd (performTransformation st)).
Proof.
  intros Hx Hy Hmx Hmy Hthrow. apply truthy_nonempty in Hx, Hy.
  rewrite (perform_nonempty st Hx Hy), tryBlock_cases. cbv zeta.
  rewrite Hmx, Hmy.
  destruct Hthrow as [Hi | (p & Hi & Ht)]; rewrite Hi; [| rewrite Ht];
    (split; [reflexivity |]); intros doc Hin; simpl in Hin;
    intuition discriminate.
Qed.

(** X3: the host calls of a run are an initial part of the sequence
    parse, parse, import, transform, serialize.  Nothing is called on an
    empty buffer; the processor is called only when neither parsed tree
    contains a [parsererror] element; the serializer is called only on
    the document the transformation returned, and then the run
    succeeds with its serialization. *)
Theorem run_call_sequence (st : State) :
  let st' := fst (performTransformation st) in
  let calls := snd (performTransformation st) in
  let xmlDoc := parseFromString (xmlCode st) in
  let xsltDoc := parseFromString (xsltCode st) in
  let parsed :=
    [CallParseFromString (xmlCode st); CallParseFromString (xsltCode st)] in
  (calls = []
   /\ (xmlCode st = EmptyString \/ xsltCode st = EmptyString))
  \/ (calls = parsed /\ (markers xmlDoc <> [] \/ markers xsltDoc <> [])
      /\ error st' <> None)
  \/ (markers xmlDoc = [] /\ markers xsltDoc = []
      /\ ((calls = parsed ++ [CallImportStylesheet xsltDoc] /\ error st' <> None)
          \/ (calls = parsed ++ [CallImportStylesheet xsltDoc;
                                 CallTransformToDocument xmlDoc]
              /\ error st' <> None)
          \/ exists (p : Processor) (doc : Document),
               importStylesheet newProcessor xsltDoc = inr p
               /\ transformToDocument p xmlDoc = inr (Some doc)
               /\ calls = parsed ++ [CallImportStylesheet xsltDoc;
                                     CallTransformToDocument xmlDoc;
                                     CallSerializeToString doc]
               /\ output st' = serializeToString doc /\ error st' = None)).
Proof.
  cbv zeta.
  destruct (truthy (xmlCode st) && truthy (xsltCode st)) eqn:Hb.
  - apply andb_true_iff in Hb as [Hx Hy].
    rewrite (perform_nonempty st Hx Hy), tryBlock_cases. cbv zeta.
    destruct (markers (parseFromString (xmlCode st))) as [| n rest];
      [| right; left; simpl; repeat split; (left + idtac); discriminate].
    destruct (markers (parseFromString (xsltCode st))) as [| m rest];
      [| right; left; simpl; repeat split; (right + idtac); discriminate].
    right. right. split; [reflexivity |]. split; [reflexivity |].
    destruct (importStylesheet newProcessor (parseFromString (xsltCode st)))
      as [e | p]; [left; simpl; split; [reflexivity | discriminate] |].
    destruct (transformToDocument p (parseFromString (xmlCode st)))
      as [e | [doc |]] eqn:Ht.
    + right. left. simpl. split; [reflexivity | discriminate].
    + right. right. exists p, doc. simpl. auto.
    + right. left. simpl. split; [reflexivity | discriminate].
  - rewrite (perform_empty st Hb). left. split; [reflexivity |].
    apply andb_false_iff in Hb as [Hb | Hb]; [left | right];
      (destruct (xmlCode st) + destruct (xsltCode st));
      simpl in Hb; congruence.
Qed.

(** X4: the message of a failed run is the fixed prefix followed by one
    of exactly five things: [Invalid XML: ] and the text of the first
    [parsererror] element of the document, [Invalid XSLT: ] and that of
    the stylesheet (the document having none), the message of an
    exception from the import or from the transformation, or the
    null-result sentence.  Reading [[0].textContent] never fails. *)
Theorem error_message_kinds (st : State) (m : string) :
  error (fst (performTransformation st)) = Some m ->
  let xmlDoc := parseFromString (xmlCode st) in
  let xsltDoc := parseFromString (xsltCode st) in
  exists detail : string,
    m = "Transformation Error: " +:+ detail
    /\ ((exists n, head (markers xmlDoc) = Some n
                  /\ detail = "Invalid XML: " +:+ textContent n)
        \/ (markers xmlDoc = []
            /\ exists n, head (markers xsltDoc) = Some n
                        /\ detail = "Invalid XSLT: " +:+ textContent n)
        \/ (markers xmlDoc = [] /\ markers xsltDoc = []
            /\ ((exists e, importStylesheet newProcessor xsltDoc = inl e
                          /\ detail = message e)
                \/ exists p, importStylesheet newProcessor xsltDoc = inr p
                     /\ ((exists e, transformToDocument p xmlDoc = inl e
                                   /\ detail = message e)
                         \/ (transformToDocument p xmlDoc = inr None
                             /\ detail =
                                  "Transformation failed. The result document is null. Check XSLT for errors."))))).
Proof.
  cbv zeta.
  destruct (truthy (xmlCode st) && truthy (xsltCode st)) eqn:Hb;
    [| rewrite (perform_empty st Hb); discriminate].
  apply andb_true_iff in Hb as [Hx Hy].
  rewrite (perform_nonempty st Hx Hy), tryBlock_cases. cbv zeta.
  destruct (markers (parseFromString (xmlCode st))) as [| n rest].
  - destruct (markers (parseFromString (xsltCode st))) as [| n' rest'].
    + destruct (importStylesheet newProcessor (parseFromString (xsltCode st)))
        as [e | p] eqn:Hi.
      * simpl. intros [= <-]. eexists. split; [reflexivity |].
        right. right. repeat split. left. eauto.
      * destruct (transformToDocument p (parseFromString (xmlCode st)))
          as [e | [doc |]] eqn:Ht; simpl; intros [= <-].
        -- eexists. split; [reflexivity |]. right. right. repeat split.
           right. exists p. split; [reflexivity |]. left. eauto.
        -- eexists. split; [reflexivity |]. right. right. repeat split.
           right. exists p. split; [reflexivity |]. right. auto.
    + simpl. intros [= <-]. eexists. split; [reflexivity |].
      right. left. split; [reflexivity |]. eauto.
  - simpl. intros [= <-]. eexists. split; [reflexivity |]. left. eauto.
Qed.

(** X5: an error a run leaves is never an empty string, so the panel
    shows the error box with it, not the preview, and the download
    button is disabled. *)
Theorem failure_always_shown (st : State) (m : string) :
  error (fst (performTransformation st)) = Some m ->
  outputPane (fst (performTransformation st)) = ErrorPane m
  /\ downloadDisabled (fst (performTransformation st)) = true.
Proof.
  intros Herr. unfold outputPane, downloadDisabled. rewrite Herr.
  assert (Hm : truthy m = true).
  { revert Herr.
    destruct (truthy (xmlCode st) && truthy (xsltCode st)) eqn:Hb;
      [| rewrite (perform_empty st Hb); discriminate].
    apply andb_true_iff in Hb as [Hx Hy].
    rewrite (perform_nonempty st Hx Hy).
    destruct (tryBlock (xmlCode st) (xsltCode st)) as [tr [e | r]]; simpl;
      [| discriminate].
    intros [= <-]. reflexivity. }
  simpl. rewrite Hm. split; [reflexivity | apply orb_true_r].
Qed.

Section DownloadFacts.
Variable createObjectURL : Blob -> string.

(** X6: when the download button is enabled after a run, that run
    succeeded: the transformation returned a document, the preview shows
    its non-empty serialization, and the handler offers exactly that
    text as [output.html] of type [text/html], removing the anchor and
    revoking the URL it created. *)
Theorem download_offers_result (st : State) :
  downloadDisabled (fst (performTransformation st)) = false ->
  let st' := fst (performTransformation st) in
  exists (p : Processor) (doc : Document),
    importStylesheet newProcessor (parseFromString (xsltCode st)) = inr p
    /\ transformToDocument p (parseFromString (xmlCode st)) = inr (Some doc)
    /\ serializeToString doc <> EmptyString
    /\ outputPane st' = Preview (serializeToString doc)
    /\ handleDownload createObjectURL st' =
         let blob := mkBlob [serializeToString doc] "text/html" in
         let a := mkAnchor (createObjectURL blob) "output.html" in
         [OpCreateObjectURL blob; OpAppendChild a; OpClick a; OpRemoveChild a;
          OpRevokeObjectURL (createObjectURL blob)].
Proof.
  cbv zeta. unfold downloadDisabled, outputPane, handleDownload.
  destruct (truthy (xmlCode st) && truthy (xsltCode st)) eqn:Hb;
    [| rewrite (perform_empty st Hb); discriminate].
  apply andb_true_iff in Hb as [Hx Hy].
  rewrite (perform_nonempty st Hx Hy), tryBlock_cases. cbv zeta.
  destruct (markers (parseFromString (xmlCode st))) as [| n rest];
    [| discriminate].
  destruct (markers (parseFromString (xsltCode st))) as [| n' rest'];
    [| discriminate].
  destruct (importStylesheet newProcessor (parseFromString (xsltCode st)))
    as [e | p] eqn:Hi; [discriminate |].
  destruct (transformToDocument p (parseFromString (xmlCode st)))
    as [e | [doc |]] eqn:Ht; [discriminate | | discriminate].
  simpl. rewrite orb_false_r. intros Hout. apply negb_false_iff in Hout.
  exists p, doc. split; [reflexivity |]. split; [exact Ht |].
  split; [now apply truthy_nonempty |]. split; reflexivity.
Qed.

End DownloadFacts.

End RunFacts.

(** * Further properties of the persisted buffers *)

Section StorageRoundTrip.
Context {T : Type} {json : Json T}.

(** X7: a value the setter wrote, and the storage accepted, is the value
    the initializer starts from on the next load, provided the JSON codec
    decodes what it encoded and the encoding is not the empty text; the
    default is not used and nothing is printed. *)
Theorem written_value_read_back (storage storage' : Storage) (key : string)
    (initialValue current : T) (value : SetArg) :
  let v := valueToStore current value in
  setItem storage key (JSON_stringify v) = inr storage' ->
  JSON_stringify v <> EmptyString ->
  JSON_parse (JSON_stringify v) = inr v ->
  let r := setValue (Some storage) key current value in
  windowStorage r = Some storage'
  /\ initialStoredValue (windowStorage r) key initialValue
     = mkStored v (Some storage') [CallGetItem key] [].
Proof.
  cbv zeta. intros Hset Hne Hcodec. unfold setValue. rewrite Hset. simpl.
  split; [reflexivity |].
  destruct (getItem_setItem _ _ _ _ Hset) as [Hkey _].
  rewrite Hkey. apply truthy_nonempty in Hne. rewrite Hne, Hcodec. reflexivity.
Qed.

(** X8: writing one buffer never changes what another key yields at
    startup, whether the storage accepts the write or not. *)
Theorem write_leaves_other_key (storage : Storage) (key other : string)
    (initialValue current : T) (value : SetArg) :
  other <> key ->
  let r := setValue (Some storage) key current value in
  storedValue (initialStoredValue (windowStorage r) other initialValue)
    = storedValue (initialStoredValue (Some storage) other initialValue)
  /\ consoleErrors (initialStoredValue (windowStorage r) other initialValue)
    = consoleErrors (initialStoredValue (Some storage) other initialValue).
Proof.
  cbv zeta. intros Hne. unfold setValue.
  destruct (setItem storage key _) as [e | storage'] eqn:Hset; simpl;
    [split; reflexivity |].
  destruct (getItem_setItem _ _ _ _ Hset) as [_ Hothers].
  rewrite (Hothers other Hne).
  destruct (getItem storage other) as [item |]; [| split; reflexivity].
  destruct (truthy item); [| split; reflexivity].
  destruct (JSON_parse item); split; reflexivity.
Qed.

End StorageRoundTrip.

(** * Further properties of the component over time *)

Section TimingFacts.
Context {host : Host} {json : Json string}.

Lemma state_ext (a b : State) :
  xmlCode a = xmlCode b -> xsltCode a = xsltCode b ->
  output a = output b -> error a = error b -> a = b.
Proof. destruct a, b. simpl. congruence. Qed.

Lemma handle_unchanged (e : Edit) (app : App) :
  sameBuffers (buffers app) (buffers (handle e app)) = true ->
  view (handle e app) = view app.
Proof.
  unfold sameBuffers, buffers. simpl. intros Hsame.
  apply andb_true_iff in Hsame as [Hx Hy].
  apply String.eqb_eq in Hx, Hy.
  apply state_ext; try congruence; destruct e; reflexivity.
Qed.

Lemma elapse_buffers (d : nat) (app : App) :
  buffers (elapse d app) = buffers app.
Proof.
  unfold elapse, fire, buffers.
  destruct (timer app) as [deadline |]; [| reflexivity].
  destruct (deadline <=? now app + d)%nat; [| reflexivity].
  destruct (perform_keeps_buffers (view app)) as [Hx Hy].
  destruct (performTransformation (view app)) as [v calls]. simpl in *.
  now rewrite Hx, Hy.
Qed.

Lemma edit_buffers (e : Edit) (app : App) :
  buffers (edit e app) = editBuffers e (buffers app).
Proof.
  unfold edit. rewrite <- (handle_buffers e app).
  destruct (sameBuffers _ _); reflexivity.
Qed.

(** The buffers follow the edits, whatever the timing. *)
Lemma typing_buffers (es : list (nat * Edit)) (app : App) :
  buffers (typing es app) = buffersAfter (List.map snd es) (buffers app).
Proof.
  revert app. induction es as [| [gap e] rest IH]; intros app; [reflexivity |].
  simpl. now rewrite IH, edit_buffers, elapse_buffers.
Qed.

Lemma wellTimed_mount (t0 : nat) (win : option Storage) :
  wellTimed t0 0 (mount t0 win).
Proof.
  unfold wellTimed, mount, schedule, quietPeriod. simpl.
  split; [lia |]. split; [intros r [] |].
  split; [intros i r1 r2 Hr; discriminate |].
  repeat split; try lia; intros r [].
Qed.

Lemma wellTimed_elapse (t0 n d : nat) (app : App) :
  wellTimed t0 n app -> wellTimed t0 n (elapse d app).
Proof.
  intros (Hstart & Hpast & Hgap & Htimer). unfold elapse.
  destruct (timer app) as [deadline |] eqn:Ht.
  - destruct Htimer as (Hlt & Hle & Hfirst & Hafter & Hcount).
    destruct (Nat.leb_spec deadline (now app + d)) as [Hdue | Hnot].
    + unfold fire.
      destruct (performTransformation (view app)) as [v calls] eqn:Hrun.
      unfold wellTimed. simpl. split; [lia |]. split; [| split].
      * intros r Hin. apply in_app_or in Hin as [Hin | [<- | []]].
        -- destruct (Hpast r Hin). lia.
        -- simpl. lia.
      * intros i r1 r2 H1 H2.
        apply lookup_app_Some in H2 as [H2 | [Hlen H2]].
        -- rewrite lookup_app_l in H1 by (apply lookup_lt_Some in H2; lia).
           eauto.
        -- apply list_lookup_singleton_Some in H2 as [Hi <-].
           rewrite lookup_app_l in H1 by lia. simpl.
           apply Hafter, list_elem_of_In, (list_elem_of_lookup_2 _ i), H1.
      * split.
        -- replace v with (fst (performTransformation (view app)))
             by now rewrite Hrun.
           apply perform_settled.
        -- rewrite length_app. simpl. lia.
    + unfold wellTimed. simpl. rewrite Ht.
      split; [lia |]. split; [| split; [exact Hgap |]].
      * intros r Hin. destruct (Hpast r Hin). lia.
      * repeat split; try lia; assumption.
  - unfold wellTimed. simpl. rewrite Ht.
    split; [lia |]. split; [| split; assumption].
    intros r Hin. destruct (Hpast r Hin). lia.
Qed.

Lemma wellTimed_edit (t0 n : nat) (e : Edit) (app : App) :
  wellTimed t0 n app -> wellTimed t0 (S n) (edit e app).
Proof.
  intros (Hstart & Hpast & Hgap & Htimer). unfold edit.
  destruct (handle_frame e app) as (Hnow & Ht & Hruns).
  assert (Hcount : (List.length (runs app) <= n + 1)%nat)
    by (destruct (timer app); intuition lia).
  destruct (sameBuffers (buffers app) (buffers (handle e app))) eqn:Hsame.
  - unfold wellTimed. rewrite Hnow, Ht, Hruns.
    split; [exact Hstart |]. split; [exact Hpast |]. split; [exact Hgap |].
    destruct (timer app) as [deadline |].
    + repeat split; try apply Htimer. lia.
    + rewrite (handle_unchanged e app Hsame). split; [apply Htimer | lia].
  - unfold wellTimed, schedule. simpl. rewrite Hnow, Hruns.
    split; [exact Hstart |]. split; [exact Hpast |]. split; [exact Hgap |].
    unfold quietPeriod in *. repeat split; try lia.
    intros r Hin. destruct (Hpast r Hin). lia.
Qed.

Lemma wellTimed_typing (t0 n : nat) (es : list (nat * Edit)) (app : App) :
  wellTimed t0 n app -> wellTimed t0 (n + List.length es) (typing es app).
Proof.
  revert n app. induction es as [| [gap e] rest IH]; intros n app Hwt.
  - simpl. now rewrite Nat.add_0_r.
  - simpl. replace (n + S (List.length rest))%nat
      with (S n + List.length rest)%nat by lia.
    apply IH, wellTimed_edit, wellTimed_elapse, Hwt.
Qed.

(** Any history of the component: mounted at [t0], then the edits [es]
    with their gaps, then [wait] more milliseconds. *)
Lemma wellTimed_history (t0 : nat) (win : option Storage)
    (es : list (nat * Edit)) (wait : nat) :
  wellTimed t0 (List.length es) (elapse wait (typing es (mount t0 win))).
Proof.
  apply wellTimed_elapse.
  apply (wellTimed_typing t0 0 es), wellTimed_mount.
Qed.

(** X9: whatever the edits and their timing since mounting, once a
    quiet period has passed after the last of them no timer is pending
    and the output and error on display are exactly what a run on the
    current buffers leaves; the buffers are those the edits produced. *)
Theorem view_settles (t0 : nat) (win : option Storage)
    (es : list (nat * Edit)) (wait : nat) :
  (quietPeriod <= wait)%nat ->
  let app := elapse wait (typing es (mount t0 win)) in
  timer app = None
  /\ fst (performTransformation (view app)) = view app
  /\ buffers app = buffersAfter (List.map snd es) (buffers (mount t0 win)).
Proof.
  intros Hwait. cbv zeta.
  rewrite elapse_buffers, typing_buffers.
  pose proof (wellTimed_typing t0 0 es _ (wellTimed_mount t0 win))
    as (_ & _ & _ & Htimer).
  destruct (timer (typing es (mount t0 win))) as [deadline |] eqn:Ht.
  - destruct Htimer as (_ & Hle & _).
    destruct (elapse_past_deadline wait deadline _ Ht) as (Hnone & Hview & _);
      [lia |].
    rewrite Hnone, Hview. repeat split. apply perform_settled.
  - destruct (elapse_idle wait _ Ht) as (_ & Hview & Hnone).
    rewrite Hnone, Hview. repeat split. apply Htimer.
Qed.

(** X10: two successive runs are never less than a quiet period apart,
    whatever the edits and their timing. *)
Theorem runs_quiet_period_apart (t0 : nat) (win : option Storage)
    (es : list (nat * Edit)) (wait i : nat) (r1 r2 : Run) :
  let app := elapse wait (typing es (mount t0 win)) in
  runs app !! i = Some r1 -> runs app !! S i = Some r2 ->
  (firedAt r1 + quietPeriod <= firedAt r2)%nat.
Proof.
  cbv zeta.
  pose proof (wellTimed_history t0 win es wait) as (_ & _ & Hgap & _).
  apply Hgap.
Qed.

(** X11: there are never more runs than edits plus the one mounting
    asks for, and none happens before the first quiet period is over or
    is recorded ahead of the clock. *)
Theorem runs_bounded_by_edits (t0 : nat) (win : option Storage)
    (es : list (nat * Edit)) (wait : nat) :
  let app := elapse wait (typing es (mount t0 win)) in
  (List.length (runs app) <= S (List.length es))%nat
  /\ Forall (fun r => (t0 + quietPeriod <= firedAt r)%nat
                      /\ (firedAt r <= now app)%nat) (runs app).
Proof.
  cbv zeta.
  pose proof (wellTimed_history t0 win es wait) as (_ & Hpast & _ & Htimer).
  split.
  - destruct (timer _); intuition lia.
  - apply List.Forall_forall. exact Hpast.
Qed.

(** X12: clearing inputs that are not both empty already empties both
    buffers at once and, a quiet period later, blanks the panel by a
    single run that calls nothing on the platform. *)
Theorem clear_blanks_panel (app : App) (wait : nat) :
  sameBuffers (buffers app) (EmptyString, EmptyString) = false ->
  (quietPeriod <= wait)%nat ->
  let cleared := edit ClearInputs app in
  let after := elapse wait cleared in
  buffers cleared = (EmptyString, EmptyString)
  /\ runs cleared = runs app
  /\ view after = mkState EmptyString EmptyString EmptyString None
  /\ runs after =
       runs app ++ [mkRun (now app + quietPeriod) EmptyString EmptyString []].
Proof.
  intros Hchange Hwait. cbv zeta.
  destruct (edit_changing ClearInputs app Hchange) as (Hnow & Ht & Hruns & Hbuf).
  destruct (elapse_past_deadline wait _ _ Ht) as (_ & Hview & Hrun); [lia |].
  simpl editBuffers in Hbuf.
  pose proof (f_equal fst Hbuf) as Hx. pose proof (f_equal snd Hbuf) as Hy.
  unfold buffers in Hx, Hy. simpl in Hx, Hy.
  assert (Hperform :
    performTransformation (view (edit ClearInputs app))
      = (mkState EmptyString EmptyString EmptyString None, [])).
  { rewrite perform_empty by now rewrite Hx.
    unfold setError, setOutput. simpl. now rewrite Hx, Hy. }
  rewrite Hbuf, Hruns, Hview, Hrun, Hruns, Hperform, Hx, Hy. repeat split.
Qed.

(** X13: mounting reads both keys of the storage and writes nothing; the
    panel stays blank, with no run, until the first quiet period is over,
    and then shows the single run on the initial buffers. *)
Theorem mount_then_first_run (t0 d : nat) (win : option Storage) :
  let app := mount t0 win in
  let later := elapse d app in
  window later = win
  /\ storageLog later =
       match win with
       | Some _ => [CallGetItem "xmlCode"; CallGetItem "xsltCode"]
       | None => []
       end
  /\ if (d <? quietPeriod)%nat
     then runs later = [] /\ output (view later) = EmptyString
          /\ error (view later) = None
     else runs later =
            [mkRun (t0 + quietPeriod) (xmlCode (view app)) (xsltCode (view app))
               (snd (performTransformation (view app)))]
          /\ view later = fst (performTransformation (view app)).
Proof.
  cbv zeta.
  assert (Hwin : window (elapse d (mount t0 win)) = win).
  { unfold elapse, fire, mount, schedule. simpl.
    destruct (_ <=? _)%nat; [| reflexivity].
    destruct (performTransformation _); reflexivity. }
  assert (Hlog : storageLog (elapse d (mount t0 win))
                 = storageLog (mount t0 win)).
  { unfold elapse, fire, mount, schedule. simpl.
    destruct (_ <=? _)%nat; [| reflexivity].
    destruct (performTransformation _); reflexivity. }
  split; [exact Hwin |]. split.
  - rewrite Hlog. unfold mount, schedule, initialStoredValue. simpl.
    destruct win as [storage |]; [| reflexivity].
    destruct (getItem storage "xmlCode") as [item |];
      [destruct (truthy item); [destruct (JSON_parse item) |] |];
      (destruct (getItem storage "xsltCode") as [item' |];
       [destruct (truthy item'); [destruct (JSON_parse item') |] |]);
      reflexivity.
  - assert (Ht : timer (mount t0 win) = Some (now (mount t0 win) + quietPeriod)%nat)
      by reflexivity.
    destruct (Nat.ltb_spec d quietPeriod) as [Hlt | Hge].
    + destruct (elapse_before_deadline d _ _ Ht) as (_ & _ & Hruns & Hview);
        [lia |].
      rewrite Hruns, Hview. repeat split.
    + destruct (elapse_past_deadline d _ _ Ht) as (_ & Hview & Hrun); [lia |].
      rewrite Hrun, Hview. split; reflexivity.
Qed.

(** X14: clearing is persistent.  When the storage accepts the two
    writes and the JSON codec decodes the encoding of the empty string
    (which is not itself empty), a component mounted on the storage the
    clearing leaves starts with both buffers empty, not with the
    samples. *)
Theorem clear_survives_reload (app : App) (s s1 s2 : Storage) (t0 : nat) :
  window app = Some s ->
  setItem s "xmlCode" (JSON_stringify EmptyString) = inr s1 ->
  setItem s1 "xsltCode" (JSON_stringify EmptyString) = inr s2 ->
  JSON_stringify EmptyString <> EmptyString ->
  JSON_parse (JSON_stringify EmptyString) = inr EmptyString ->
  window (edit ClearInputs app) = Some s2
  /\ buffers (mount t0 (Some s2)) = (EmptyString, EmptyString).
Proof.
  intros Hwin Hset1 Hset2 Hne Hcodec. split.
  - assert (Hhandled : window (handle ClearInputs app) = Some s2).
    { unfold handle, setXsltCode, setXmlCode, setValue. simpl.
      rewrite Hwin. simpl. rewrite Hset1. simpl. rewrite Hset2. reflexivity. }
    unfold edit. destruct (sameBuffers _ _); exact Hhandled.
  - destruct (getItem_setItem _ _ _ _ Hset1) as [Hxml _].
    destruct (getItem_setItem _ _ _ _ Hset2) as [Hxslt Hothers].
    apply truthy_nonempty in Hne.
    unfold mount, schedule, buffers, initialStoredValue. simpl.
    rewrite Hxslt, (Hothers "xmlCode"), Hxml by discriminate.
    rewrite Hne, Hcodec. reflexivity.
Qed.

Lemma handle_display (e : Edit) (app : App) :
  output (view (handle e app)) = output (view app)
  /\ error (view (handle e app)) = error (view app).
Proof. destruct e; simpl; auto. Qed.

Lemma edit_display (e : Edit) (app : App) :
  output (view (edit e app)) = output (view app)
  /\ error (view (edit e app)) = error (view app).
Proof.
  unfold edit. destruct (handle_display e app) as [Ho He].
  destruct (sameBuffers _ _); simpl; auto.
Qed.

Lemma typing_burst_display (es : list (nat * Edit)) (app : App) :
  timer app = Some (now app + quietPeriod)%nat ->
  allChange (List.map snd es) (buffers app) = true ->
  Forall (fun ge => (fst ge < quietPeriod)%nat) es ->
  output (view (typing es app)) = output (view app)
  /\ error (view (typing es app)) = error (view app).
Proof.
  revert app. induction es as [| [gap e] rest IH]; intros app Harmed Hchange Hgaps.
  - simpl. auto.
  - simpl in *. apply andb_true_iff in Hchange as [Hfirst Hrest].
    apply negb_true_iff in Hfirst.
    inversion Hgaps as [| ? ? Hgap Hgaps']; subst. simpl in Hgap.
    destruct (elapse_before_deadline gap _ app Harmed)
      as (Hnow & Htimer & _ & Hview); [lia |].
    assert (Hbuf : buffers (elapse gap app) = buffers app)
      by (unfold buffers; now rewrite Hview).
    destruct (edit_changing e (elapse gap app)) as (Hnow' & Htimer' & _ & Hbuf');
      [now rewrite Hbuf |].
    destruct (edit_display e (elapse gap app)) as [Ho He].
    destruct (IH (edit e (elapse gap app))) as [Ho' He'].
    + now rewrite Htimer', Hnow'.
    + now rewrite Hbuf', Hbuf.
    + assumption.
    + rewrite Ho', He', Ho, He, Hview. auto.
Qed.

(** X15: while a burst of changing edits lasts, each less than a quiet
    period after the one before, the panel keeps the output and the
    error it had before the burst, although the buffers follow the
    edits: an edit by itself transforms nothing. *)
Theorem burst_keeps_previous_result (app : App) (e : Edit)
    (es : list (nat * Edit)) :
  allChange (e :: List.map snd es) (buffers app) = true ->
  Forall (fun ge => (fst ge < quietPeriod)%nat) es ->
  let during := typing es (edit e app) in
  output (view during) = output (view app)
  /\ error (view during) = error (view app)
  /\ buffers during = buffersAfter (e :: List.map snd es) (buffers app).
Proof.
  intros Hchange Hgaps. cbv zeta. simpl in Hchange.
  apply andb_true_iff in Hchange as [Hfirst Hrest].
  apply negb_true_iff in Hfirst.
  destruct (edit_changing e app Hfirst) as (Hnow & Htimer & _ & Hbuf).
  destruct (edit_display e app) as [Ho He].
  destruct (typing_burst_display es (edit e app)) as [Ho' He'].
  { now rewrite Htimer, Hnow. }
  { now rewrite Hbuf. }
  { assumption. }
  rewrite Ho', He', Ho, He, typing_buffers, edit_buffers. repeat split.
Qed.

End TimingFacts.

(** ** The further properties on the reference platforms *)

Section FurtherRuns.
Import SampleHost.

Lemma run_reads_buffers_only_witness :
  performTransformation (mkState lettersText valueStylesheet "stale" (Some "old"))
    = performTransformation (mkState lettersText valueStylesheet EmptyString None).
Proof. apply run_reads_buffers_only; reflexivity. Defined.

Lemma platform_exception_surfaced_witness :
  fst (performTransformation (host := strictHost)
         (mkState lettersText plainMarkup "stale" None))
    = mkState lettersText plainMarkup EmptyString
        (Some "Transformation Error: Component returned failure code: 0x80600001").
Proof.
  apply (platform_exception_surfaced (host := strictHost)
           (mkState lettersText plainMarkup "stale" None)
           (Error "Component returned failure code: 0x80600001"));
    try discriminate; try reflexivity.
  left. reflexivity.
Defined.

Lemma error_message_kinds_witness :
  exists detail : string,
    "Transformation Error: Invalid XML: XML Parsing Error: mismatched tag"
      = "Transformation Error: " +:+ detail.
Proof.
  destruct (error_message_kinds
              (mkState unclosedText valueStylesheet EmptyString None)
              "Transformation Error: Invalid XML: XML Parsing Error: mismatched tag")
    as (detail & Hm & _); [reflexivity |].
  exists detail. exact Hm.
Defined.

Lemma failure_always_shown_witness :
  outputPane (fst (performTransformation
                     (mkState lettersText unclosedText "stale" None)))
    = ErrorPane "Transformation Error: Invalid XSLT: XML Parsing Error: mismatched tag".
Proof.
  apply (failure_always_shown (mkState lettersText unclosedText "stale" None)).
  reflexivity.
Defined.

Lemma download_offers_result_witness :
  exists doc : Document,
    outputPane (fst (performTransformation
                       (mkState lettersText valueStylesheet EmptyString None)))
      = Preview (serializeToString doc)
    /\ serializeToString doc <> EmptyString.
Proof.
  destruct (download_offers_result blobUrl
              (mkState lettersText valueStylesheet EmptyString None))
    as (p & doc & _ & _ & Hne & Hpane & _); [reflexivity |].
  exists doc. split; assumption.
Defined.

Lemma written_value_read_back_witness :
  storedValue
    (initialStoredValue
       (windowStorage
          (setValue (Some corruptedStorage) "xmlCode" sampleXML (Plain lettersText)))
       "xmlCode" sampleXML)
    = lettersText.
Proof.
  destruct (written_value_read_back (json := sampleJson) corruptedStorage
              (mkStorage (<["xmlCode" := stringify lettersText]>
                            (items corruptedStorage)) 5000)
              "xmlCode" sampleXML sampleXML (Plain lettersText))
    as [_ Hread]; [vm_compute; reflexivity | discriminate | reflexivity |].
  rewrite Hread. reflexivity.
Defined.

Lemma write_leaves_other_key_witness :
  storedValue
    (initialStoredValue
       (windowStorage
          (setValue (Some corruptedStorage) "xsltCode" sampleXSLT (Plain lettersText)))
       "xmlCode" sampleXML)
    = sampleXML.
Proof.
  destruct (write_leaves_other_key (json := sampleJson) corruptedStorage
              "xsltCode" "xmlCode" sampleXML sampleXSLT (Plain lettersText))
    as [Hvalue _]; [discriminate |].
  rewrite Hvalue. reflexivity.
Defined.

(** Mounted at 0, edited at 100 and at 500: runs at 400 and at 800. *)
Lemma view_settles_witness :
  let app := elapse 300
               (typing [(100, EditXml unclosedText); (400, EditXslt valueStylesheet)]
                  (mount 0 (Some corruptedStorage))) in
  buffers app = (unclosedText, valueStylesheet) /\ timer app = None.
Proof.
  destruct (view_settles 0 (Some corruptedStorage)
              [(100, EditXml unclosedText); (400, EditXslt valueStylesheet)] 300)
    as (Htimer & _ & Hbuf); [unfold quietPeriod; lia |].
  cbv zeta. rewrite Hbuf. split; [reflexivity | exact Htimer].
Defined.

Lemma runs_quiet_period_apart_witness :
  let app := elapse 300
               (typing [(100, EditXml unclosedText); (400, EditXslt valueStylesheet)]
                  (mount 0 (Some corruptedStorage))) in
  exists r1 r2 : Run,
    runs app !! 0%nat = Some r1 /\ runs app !! 1%nat = Some r2
    /\ (firedAt r1 + quietPeriod <= firedAt r2)%nat.
Proof.
  intros app.
  destruct (runs app !! 0%nat) as [r1 |] eqn:H1;
    [| vm_compute in H1; discriminate].
  destruct (runs app !! 1%nat) as [r2 |] eqn:H2;
    [| vm_compute in H2; discriminate].
  exists r1, r2. split; [reflexivity |]. split; [reflexivity |].
  exact (runs_quiet_period_apart 0 (Some corruptedStorage)
           [(100, EditXml unclosedText); (400, EditXslt valueStylesheet)]
           300 0 r1 r2 H1 H2).
Defined.

Lemma clear_blanks_panel_witness :
  view (elapse 300 (edit ClearInputs (mount 0 (Some corruptedStorage))))
    = mkState EmptyString EmptyString EmptyString None.
Proof.
  destruct (clear_blanks_panel (mount 0 (Some corruptedStorage)) 300)
    as (_ & _ & Hview & _);
    [vm_compute; reflexivity | unfold quietPeriod; lia |].
  exact Hview.
Defined.

Lemma clear_survives_reload_witness :
  buffers (mount 7 (window (edit ClearInputs (mount 0 (Some corruptedStorage)))))
    = (EmptyString, EmptyString).
Proof.
  destruct (clear_survives_reload (json := sampleJson)
              (mount 0 (Some corruptedStorage)) corruptedStorage
              (mkStorage (<["xmlCode" := stringify EmptyString]>
                            (items corruptedStorage)) 5000)
              (mkStorage (<["xsltCode" := stringify EmptyString]>
                            (<["xmlCode" := stringify EmptyString]>
                               (items corruptedStorage))) 5000)
              7) as [Hwin Hbuf];
    [reflexivity | vm_compute; reflexivity | vm_compute; reflexivity
     | discriminate | reflexivity |].
  rewrite Hwin. exact Hbuf.
Defined.

(** The error of a run on an unclosed document stays on display while
    the document is being repaired. *)
Lemma burst_keeps_previous_result_witness :
  let app := elapse 300 (edit (EditXml unclosedText)
                           (mount 0 (Some corruptedStorage))) in
  let during := typing [(100, EditXslt valueStylesheet)]
                  (edit (EditXml lettersText) app) in
  error (view during)
    = Some "Transformation Error: Invalid XML: XML Parsing Error: mismatched tag"
  /\ buffers during = (lettersText, valueStylesheet).
Proof.
  intros app during.
  destruct (burst_keeps_previous_result app (EditXml lettersText)
              [(100, EditXslt valueStylesheet)]) as (_ & Herr & Hbuf);
    [vm_compute; reflexivity
     | unfold quietPeriod; repeat constructor; simpl; lia |].
  subst during. rewrite Herr, Hbuf. split; vm_compute; reflexivity.
Defined.

End FurtherRuns.
